(** * gosynctasks: the relative date view plugin

    A shallow embedding of [examples/view-plugins/date-relative.py] and the
    properties its specification states about it.

    The script reads one JSON document from standard input, picks a date
    field, and prints a label such as "Today" or "in 3 days".  It runs on
    top of three pieces of the Python standard library, which are modelled
    here as far as the script uses them:

    - [json.load(sys.stdin)]: its outcome (a parsed value or a raised
      exception) is a field of the world the script runs in;
    - the [datetime] arithmetic ([timedelta] normalisation, the proleptic
      Gregorian ordinal, subtraction of two [datetime] objects), modelled
      after the library's reference implementation;
    - [datetime.fromisoformat]: the script is verified for an arbitrary
      parser (a section variable), and a concrete parser for the grammar
      written by [datetime.isoformat] is supplied to run examples.

    A Python [str] is modelled by [string], read as its characters or as
    its UTF-8 bytes: the script only tests a string for emptiness and
    replaces the ASCII character Z, which is the same on both readings.
    An [int] is a [Z], a [float] a primitive [float].  A lone surrogate,
    which a JSON escape can put into a [str], appears in the UTF-8 reading
    as the three bytes the encoding scheme would give it (ED A0 80 for
    U+D800).  Standard output is a UTF-8 stream with the default strict
    error handler, so [print] raises [UnicodeEncodeError] on a string that
    holds such a surrogate; the error stream escapes what it cannot encode.
    A closed or full stream is outside the model. *)

From Stdlib Require Import ZArith List String Ascii Bool Lia.
From Stdlib Require Import DecimalString PrimFloat.
Import ListNotations.

Set Warnings "-register-all".

Local Open Scope string_scope.
Local Open Scope Z_scope.

(** ** Values *)

(** What [json.load] produces: [None], [bool], [int], [float], [str],
    [list], [dict].  The members of an object are kept in document order;
    [json.load] keeps the last value of a repeated key (see [dict_lookup]). *)
Inductive json : Type :=
| JNull
| JBool (b : bool)
| JInt (n : Z)
| JFloat (f : float)
| JStr (s : string)
| JArr (items : list json)
| JObj (members : list (string * json)).

(** Python truth value of an object, as tested by [not x] and [x or y]. *)
Definition truthy (v : json) : bool :=
  match v with
  | JNull => false
  | JBool b => b
  | JInt n => negb (n =? 0)
  | JFloat f => negb (PrimFloat.eqb f PrimFloat.zero)
  | JStr s => negb (String.eqb s "")
  | JArr items => match items with [] => false | _ => true end
  | JObj members => match members with [] => false | _ => true end
  end.

(** [type(v).__name__], as it appears in the text of an [AttributeError]. *)
Definition type_name (v : json) : string :=
  match v with
  | JNull => "NoneType"
  | JBool _ => "bool"
  | JInt _ => "int"
  | JFloat _ => "float"
  | JStr _ => "str"
  | JArr _ => "list"
  | JObj _ => "dict"
  end.

(** ** Exceptions *)

Inductive exc_class : Type :=
| ValueError
| TypeError
| AttributeError
| OverflowError
| JSONDecodeError
| OSError
| UnicodeDecodeError
| UnicodeEncodeError.

(** An instance of a subclass of [Exception]; [exc_msg] is [str(e)]. *)
Record exn : Type := Exn { exc_type : exc_class; exc_msg : string }.

Inductive result (A : Type) : Type :=
| Ok (a : A)
| Err (e : exn).
Arguments Ok {A} a.
Arguments Err {A} e.

Definition no_attribute (v : json) (attr : string) : exn :=
  Exn AttributeError
      ("'" ++ type_name v ++ "' object has no attribute '" ++ attr ++ "'").

(** ** Strings *)

(** [s.replace(old, new)] for a one-character [old]: every occurrence. *)
Fixpoint replace_char (old : ascii) (new : string) (s : string) : string :=
  match s with
  | EmptyString => EmptyString
  | String c rest =>
      if Ascii.eqb c old then new ++ replace_char old new rest
      else String c (replace_char old new rest)
  end.

(** [date_str.replace('Z', '+00:00')]: only a [str] has the method. *)
Definition str_replace_Z (date_str : json) : result string :=
  match date_str with
  | JStr s => Ok (replace_char "Z"%char "+00:00" s)
  | v => Err (no_attribute v "replace")
  end.

(** [str(n)] for an [int]. *)
Definition str_of_int (n : Z) : string :=
  NilEmpty.string_of_int (Z.to_int n).

(** ** [timedelta] *)

Record timedelta : Type :=
  Timedelta { td_days : Z; td_seconds : Z; td_microseconds : Z }.

Definition timedelta_eqb (a b : timedelta) : bool :=
  (td_days a =? td_days b) && (td_seconds a =? td_seconds b)
  && (td_microseconds a =? td_microseconds b).

(** [timedelta(days, seconds, microseconds)] on integers: the constructor's
    carrying, step by step ([divmod] is floor division on [int]). *)
Definition timedelta_new (days seconds microseconds : Z) : result timedelta :=
  let d := days in
  let '(days1, seconds1) := (seconds / 86400, seconds mod 86400) in
  let d := d + days1 in
  let s := seconds1 in
  let '(seconds2, microseconds2) :=
    (microseconds / 1000000, microseconds mod 1000000) in
  let '(days3, seconds3) := (seconds2 / 86400, seconds2 mod 86400) in
  let d := d + days3 in
  let s := s + seconds3 in
  let '(seconds4, us) := (microseconds2 / 1000000, microseconds2 mod 1000000) in
  let s := s + seconds4 in
  let '(days5, s) := (s / 86400, s mod 86400) in
  let d := d + days5 in
  if Z.abs d >? 999999999
  then Err (Exn OverflowError
                ("timedelta # of days is too large: " ++ str_of_int d))
  else Ok (Timedelta d s us).

Definition timedelta_add (a b : timedelta) : result timedelta :=
  timedelta_new (td_days a + td_days b) (td_seconds a + td_seconds b)
                (td_microseconds a + td_microseconds b).

Definition timedelta_sub (a b : timedelta) : result timedelta :=
  timedelta_new (td_days a - td_days b) (td_seconds a - td_seconds b)
                (td_microseconds a - td_microseconds b).

(** ** [datetime] *)

(** [tzinfo] is [None] for a naive object and otherwise a fixed-offset
    [timezone], given by its [utcoffset()]. *)
Record datetime : Type :=
  Datetime {
      year : Z; month : Z; day : Z;
      hour : Z; minute : Z; second : Z; microsecond : Z;
      tzinfo : option timedelta
    }.

Definition timezone_utc : timedelta := Timedelta 0 0 0.

Definition _DAYS_IN_MONTH : list Z :=
  [-1; 31; 28; 31; 30; 31; 30; 31; 31; 30; 31; 30; 31].

Definition _DAYS_BEFORE_MONTH : list Z :=
  [-1; 0; 31; 59; 90; 120; 151; 181; 212; 243; 273; 304; 334].

Definition _is_leap (y : Z) : bool :=
  (y mod 4 =? 0) && (negb (y mod 100 =? 0) || (y mod 400 =? 0)).

Definition _days_before_year (y : Z) : Z :=
  let y := y - 1 in
  y * 365 + y / 4 - y / 100 + y / 400.

Definition _days_in_month (y m : Z) : Z :=
  if (m =? 2) && _is_leap y then 29
  else nth (Z.to_nat m) _DAYS_IN_MONTH 0.

Definition _days_before_month (y m : Z) : Z :=
  nth (Z.to_nat m) _DAYS_BEFORE_MONTH 0
  + (if (m >? 2) && _is_leap y then 1 else 0).

Definition _ymd2ord (y m d : Z) : Z :=
  _days_before_year y + _days_before_month y m + d.

Definition toordinal (t : datetime) : Z :=
  _ymd2ord (year t) (month t) (day t).

(** [self - other] for two [datetime] objects. *)
Definition datetime_sub (self other : datetime) : result timedelta :=
  let days1 := toordinal self in
  let days2 := toordinal other in
  let secs1 := second self + minute self * 60 + hour self * 3600 in
  let secs2 := second other + minute other * 60 + hour other * 3600 in
  match timedelta_new (days1 - days2) (secs1 - secs2)
                      (microsecond self - microsecond other) with
  | Err e => Err e
  | Ok base =>
      match tzinfo self, tzinfo other with
      | None, None => Ok base
      | Some myoff, Some otoff =>
          if timedelta_eqb myoff otoff then Ok base
          else
            match timedelta_add base otoff with
            | Err e => Err e
            | Ok t => timedelta_sub t myoff
            end
      | _, _ =>
          Err (Exn TypeError
                   "can't subtract offset-naive and offset-aware datetimes")
      end
  end.

(** The constructor's range checks ([_check_date_fields],
    [_check_time_fields]) and the range of a [timezone] offset. *)
Definition check_date_fields (y m d : Z) : bool :=
  (1 <=? y) && (y <=? 9999) && (1 <=? m) && (m <=? 12)
  && (1 <=? d) && (d <=? _days_in_month y m).

Definition check_time_fields (h mi s us : Z) : bool :=
  (0 <=? h) && (h <=? 23) && (0 <=? mi) && (mi <=? 59)
  && (0 <=? s) && (s <=? 59) && (0 <=? us) && (us <=? 999999).

Definition td_total_us (t : timedelta) : Z :=
  (td_days t * 86400 + td_seconds t) * 1000000 + td_microseconds t.

Definition check_utc_offset (off : timedelta) : bool :=
  (0 <=? td_seconds off) && (td_seconds off <? 86400)
  && (0 <=? td_microseconds off) && (td_microseconds off <? 1000000)
  && (-86400000000 <? td_total_us off) && (td_total_us off <? 86400000000).

Definition valid_datetime (t : datetime) : bool :=
  check_date_fields (year t) (month t) (day t)
  && check_time_fields (hour t) (minute t) (second t) (microsecond t)
  && match tzinfo t with
     | None => true
     | Some off => check_utc_offset off
     end.

(** ** The world the script runs in *)

(** [stdin_json] is what [json.load(sys.stdin)] does on the text waiting on
    standard input; [clock] holds the fields of the current UTC wall-clock
    time; [stdout] and [stderr] list the objects handed to [print], oldest
    first (each call writes [str(obj)] and a newline, and [str] of a [str]
    is the text itself). *)
Record World : Type :=
  MkWorld {
      stdin_json : result json;
      clock : datetime;
      stdout : list json;
      stderr : list json
    }.

(** How a piece of code ends: it returns, an [Exception] propagates, or
    [sys.exit] unwinds the interpreter ([SystemExit] is not an [Exception],
    so no handler of the script catches it). *)
Inductive outcome (A : Type) : Type :=
| Ret (a : A)
| Raise (e : exn)
| Exit (status : Z).
Arguments Ret {A} a.
Arguments Raise {A} e.
Arguments Exit {A} status.

Definition M (A : Type) : Type := World -> outcome A * World.

Definition ret {A} (a : A) : M A := fun w => (Ret a, w).

Definition bind {A B} (m : M A) (k : A -> M B) : M B :=
  fun w =>
    match m w with
    | (Ret a, w') => k a w'
    | (Raise e, w') => (Raise e, w')
    | (Exit c, w') => (Exit c, w')
    end.

Definition raise {A} (e : exn) : M A := fun w => (Raise e, w).

Definition lift {A} (r : result A) : M A :=
  match r with
  | Ok a => ret a
  | Err e => raise e
  end.

(** [try: body except Exception as e: handler]. *)
Definition try_except {A} (body : M A) (handler : exn -> M A) : M A :=
  fun w =>
    match body w with
    | (Raise e, w') => handler e w'
    | r => r
    end.

Notation "x <- m ;; k" := (bind m (fun x => k))
  (at level 61, m at next level, right associativity).
Notation "m ;;; k" := (bind m (fun _ => k))
  (at level 61, right associativity).

(** [json.load(sys.stdin)] *)
Definition json_load_stdin : M json := fun w => lift (stdin_json w) w.

(** The clock reading as an aware [datetime] in [timezone.utc]. *)
Definition aware_utc (c : datetime) : datetime :=
  Datetime (year c) (month c) (day c) (hour c) (minute c) (second c)
           (microsecond c) (Some timezone_utc).

(** [datetime.now(timezone.utc)] *)
Definition datetime_now_utc : M datetime :=
  fun w => (Ret (aware_utc (clock w)), w).

Definition write_stdout (obj : json) (w : World) : World :=
  MkWorld (stdin_json w) (clock w) (stdout w ++ [obj])%list (stderr w).

Definition write_stderr (obj : json) (w : World) : World :=
  MkWorld (stdin_json w) (clock w) (stdout w) (stderr w ++ [obj])%list.

(** *** What standard output can encode *)

Definition is_continuation_byte (c : ascii) : bool :=
  let n := nat_of_ascii c in (128 <=? n)%nat && (n <? 192)%nat.

(** The first two bytes of a surrogate U+D800..U+DFFF in UTF-8 form. *)
Definition is_surrogate_start (a b : ascii) : bool :=
  let n := nat_of_ascii b in
  Nat.eqb (nat_of_ascii a) 237 && (160 <=? n)%nat && (n <=? 191)%nat.

(** The first surrogate of a string: its index counted in characters,
    [pos] being the index of the character at the head of [s], and the
    rest of the string from there. *)
Fixpoint find_surrogate (pos : Z) (s : string) : option (Z * string) :=
  match s with
  | EmptyString => None
  | String a rest =>
      match rest with
      | String b _ =>
          if is_surrogate_start a b then Some (pos, s)
          else find_surrogate (if is_continuation_byte a then pos else pos + 1)
                              rest
      | EmptyString => None
      end
  end.


(** How many surrogates follow one another at the head of [s]. *)
Fixpoint surrogate_run (s : string) : Z :=
  match s with
  | String a (String b (String _ rest)) =>
      if is_surrogate_start a b then 1 + surrogate_run rest else 0
  | _ => 0
  end.

Definition hex_digit (n : Z) : ascii :=
  ascii_of_nat (Z.to_nat (if n <? 10 then 48 + n else 87 + n)).

(** The escape [\udXXX] under which Python shows the surrogate that [s]
    starts with. *)
Definition surrogate_escape (s : string) : string :=
  match s with
  | String _ (String b (String c _)) =>
      let cp := 53248 + (Z.of_nat (nat_of_ascii b) mod 64) * 64
                + Z.of_nat (nat_of_ascii c) mod 64 in
      String (ascii_of_nat 92) (String "u"
        (String (hex_digit (cp / 4096))
           (String (hex_digit (cp / 256 mod 16))
              (String (hex_digit (cp / 16 mod 16))
                 (String (hex_digit (cp mod 16)) EmptyString)))))
  | _ => EmptyString
  end.

(** What the UTF-8 encoder raises on a surrogate, or on a run of them, at
    character [pos]. *)
Definition surrogates_not_allowed (pos : Z) (at_surrogate : string) : exn :=
  let run := surrogate_run at_surrogate in
  Exn UnicodeEncodeError
      (if run <=? 1
       then "'utf-8' codec can't encode character '"
            ++ surrogate_escape at_surrogate ++ "' in position "
            ++ str_of_int pos ++ ": surrogates not allowed"
       else "'utf-8' codec can't encode characters in position "
            ++ str_of_int pos ++ "-" ++ str_of_int (pos + run - 1)
            ++ ": surrogates not allowed").

(** Writing [str(obj)] to standard output: the text of a [str] is encoded
    as it is; [str] of any other value spells a surrogate as an escape, so
    it always encodes. *)
Definition encode_for_stdout (obj : json) : result unit :=
  match obj with
  | JStr s =>
      match find_surrogate 0 s with
      | Some (pos, at_surrogate) => Err (surrogates_not_allowed pos at_surrogate)
      | None => Ok tt
      end
  | _ => Ok tt
  end.

(** [print(obj)]: nothing is written when the text does not encode. *)
Definition print (obj : json) : M unit :=
  fun w =>
    match encode_for_stdout obj with
    | Ok _ => (Ret tt, write_stdout obj w)
    | Err e => (Raise e, w)
    end.

(** [print(obj, file=sys.stderr)] *)

Definition print_stderr (obj : json) : M unit :=
  fun w => (Ret tt, write_stderr obj w).

(** [sys.exit(status)] *)
Definition sys_exit {A} (status : Z) : M A := fun w => (Exit status, w).

(** [dict.get]: the value of the last member named [key], else [None]. *)
Fixpoint dict_lookup (members : list (string * json)) (key : string) : json :=
  match members with
  | [] => JNull
  | (k, v) :: rest =>
      if String.eqb k key
      then (if existsb (fun kv => String.eqb (fst kv) key) rest
            then dict_lookup rest key else v)
      else dict_lookup rest key
  end.

(** [data.get(key)]: only a [dict] has the method. *)
Definition data_get (data : json) (key : string) : M json :=
  match data with
  | JObj members => ret (dict_lookup members key)
  | v => raise (no_attribute v "get")
  end.

(** [a or b]: [b] is evaluated only when [a] is false. *)
Definition py_or (a b : M json) : M json :=
  x <- a ;; if truthy x then ret x else b.

(** ** The script *)

Section Script.

(** [datetime.fromisoformat], whose grammar depends on the Python
    version: the script is verified for any parser. *)
Variable fromisoformat : string -> result datetime.

Definition format_relative_date (date_str : json) : M json :=
  if negb (truthy date_str) then ret (JStr "")
  else
    try_except
      (s <- lift (str_replace_Z date_str) ;;
       date <- lift (fromisoformat s) ;;
       now <- datetime_now_utc ;;
       delta <- lift (datetime_sub date now) ;;
       let days := td_days delta in
       if days =? 0 then ret (JStr "Today")
       else if days =? 1 then ret (JStr "Tomorrow")
       else if days =? -1 then ret (JStr "Yesterday")
       else if days >? 0 then ret (JStr ("in " ++ str_of_int days ++ " days"))
       else ret (JStr (str_of_int (Z.abs days) ++ " days ago")))
      (fun e => ret date_str).

Definition main : M unit :=
  try_except
    (data <- json_load_stdin ;;
     date_str <- py_or (data_get data "due_date")
                       (py_or (data_get data "start_date")
                              (data_get data "created")) ;;
     result <- format_relative_date date_str ;;
     print result)
    (fun e =>
       print_stderr (JStr ("Error: " ++ exc_msg e)) ;;;
       sys_exit 1).

(** Running the script: the exit status and the final world.  An
    uncaught exception ends the interpreter with status 1. *)
Definition run_script (w : World) : Z * World :=
  match main w with
  | (Ret _, w') => (0, w')
  | (Raise _, w') => (1, w')
  | (Exit status, w') => (status, w')
  end.

End Script.

(** ** A parser for the [isoformat()] grammar

    [YYYY-MM-DD[*HH[:MM[:SS[.fff[fff]]]][+HH:MM[:SS[.ffffff]]]]], the
    grammar documented for [datetime.fromisoformat] in Python 3.7 to 3.10
    and accepted by every later version; [*] is any one character, of one
    to four bytes in the UTF-8 reading, a lone surrogate included.  Later
    versions accept further ISO 8601 forms, which is why the script is
    verified for any parser; this one serves to run the script on concrete
    input. *)

Definition is_ascii_digit (c : ascii) : bool :=
  let n := nat_of_ascii c in (48 <=? n)%nat && (n <=? 57)%nat.

Definition digit_value (c : ascii) : Z := Z.of_nat (nat_of_ascii c) - 48.

Fixpoint parse_digits_from (acc : Z) (s : string) : option Z :=
  match s with
  | EmptyString => Some acc
  | String c rest =>
      if is_ascii_digit c then parse_digits_from (acc * 10 + digit_value c) rest
      else None
  end.

(** A non-empty run of ASCII digits, read in base ten. *)
Definition parse_digits (s : string) : option Z :=
  match s with
  | EmptyString => None
  | _ => parse_digits_from 0 s
  end.

(** Exactly [n] ASCII digits. *)
Definition parse_digits_n (n : nat) (s : string) : option Z :=
  if Nat.eqb (String.length s) n then parse_digits s else None.

Definition char_at (n : nat) (s : string) : option ascii := String.get n s.

Definition is_char (c : ascii) (o : option ascii) : bool :=
  match o with
  | Some c' => Ascii.eqb c c'
  | None => false
  end.

(** [YYYY-MM-DD], on a string of length 10. *)
Definition _parse_isoformat_date (dstr : string) : option (Z * Z * Z) :=
  if negb (Nat.eqb (String.length dstr) 10) then None
  else if negb (is_char "-" (char_at 4 dstr) && is_char "-" (char_at 7 dstr))
  then None
  else
    match parse_digits (substring 0 4 dstr),
          parse_digits (substring 5 2 dstr),
          parse_digits (substring 8 2 dstr) with
    | Some y, Some m, Some d => Some (y, m, d)
    | _, _, _ => None
    end.

(** [.fff] or [.ffffff], or nothing. *)
Definition parse_fraction (rest : string) : option Z :=
  match rest with
  | EmptyString => Some 0
  | String c digits =>
      if negb (Ascii.eqb c ".") then None
      else
        match String.length digits, parse_digits digits with
        | 3%nat, Some v => Some (v * 1000)
        | 6%nat, Some v => Some v
        | _, _ => None
        end
  end.

(** [HH[:MM[:SS[.fff[fff]]]]] *)
Definition _parse_hh_mm_ss_ff (tstr : string) : option (Z * Z * Z * Z) :=
  match parse_digits_n 2 (substring 0 2 tstr), String.length tstr with
  | Some h, 2%nat => Some (h, 0, 0, 0)
  | Some h, _ =>
      if negb (is_char ":" (char_at 2 tstr)) then None
      else
        match parse_digits_n 2 (substring 3 2 tstr), String.length tstr with
        | Some mi, 5%nat => Some (h, mi, 0, 0)
        | Some mi, _ =>
            if negb (is_char ":" (char_at 5 tstr)) then None
            else
              match parse_digits_n 2 (substring 6 2 tstr),
                    parse_fraction
                      (substring 8 (String.length tstr - 8) tstr) with
              | Some sec, Some us => Some (h, mi, sec, us)
              | _, _ => None
              end
        | None, _ => None
        end
  | None, _ => None
  end.

(** The position of the first ['-'], else of the first ['+']. *)
Definition find_tz_sign (tstr : string) : option nat :=
  match index 0 "-" tstr with
  | Some i => Some i
  | None => index 0 "+" tstr
  end.

(** [+HH:MM[:SS[.ffffff]]] after the sign: the [timezone] it denotes. *)
Definition parse_tz (negative : bool) (tzstr : string) : option timedelta :=
  let len := String.length tzstr in
  if negb (Nat.eqb len 5 || Nat.eqb len 8 || Nat.eqb len 15) then None
  else
    match _parse_hh_mm_ss_ff tzstr with
    | None => None
    | Some (h, mi, sec, us) =>
        let tzsign := if negative then -1 else 1 in
        match timedelta_new 0 (tzsign * (h * 3600 + mi * 60 + sec))
                            (tzsign * us) with
        | Ok off => if check_utc_offset off then Some off else None
        | Err _ => None
        end
    end.

(** [HH[:MM[:SS[.fff[fff]]]][+HH:MM[:SS[.ffffff]]]] *)
Definition _parse_isoformat_time (tstr : string)
  : option (Z * Z * Z * Z * option timedelta) :=
  match find_tz_sign tstr with
  | None =>
      match _parse_hh_mm_ss_ff tstr with
      | Some (h, mi, sec, us) => Some (h, mi, sec, us, None)
      | None => None
      end
  | Some i =>
      match _parse_hh_mm_ss_ff (substring 0 i tstr),
            parse_tz (is_char "-" (char_at i tstr))
                     (substring (S i) (String.length tstr - S i) tstr) with
      | Some (h, mi, sec, us), Some off => Some (h, mi, sec, us, Some off)
      | _, _ => None
      end
  end.

Definition invalid_isoformat : exn :=
  Exn ValueError "Invalid isoformat string".

(** The constructor [datetime(...)], which refuses fields out of range. *)
Definition datetime_new (y m d h mi sec us : Z) (tz : option timedelta)
  : result datetime :=
  if negb (check_date_fields y m d)
  then Err (Exn ValueError "date field out of range")
  else if negb (check_time_fields h mi sec us)
  then Err (Exn ValueError "time field out of range")
  else Ok (Datetime y m d h mi sec us tz).

(** The bytes taken by the character that separates date and time, read
    off its first byte. *)
Definition separator_length (c : ascii) : nat :=
  let n := nat_of_ascii c in
  if (n <? 128)%nat then 1%nat
  else if (240 <=? n)%nat then 4%nat
  else if (224 <=? n)%nat then 3%nat
  else 2%nat.

Definition fromisoformat_iso (date_string : string) : result datetime :=
  match _parse_isoformat_date (substring 0 10 date_string) with
  | None => Err invalid_isoformat
  | Some (y, m, d) =>
      match char_at 10 date_string with
      | None => datetime_new y m d 0 0 0 0 None
      | Some sep =>
          let start := (10 + separator_length sep)%nat in
          match _parse_isoformat_time
                  (substring start (String.length date_string - start)
                             date_string)
          with
          | None => Err invalid_isoformat
          | Some (h, mi, sec, us, tz) => datetime_new y m d h mi sec us tz
          end
      end
  end.

(** ** Reading the specification

    The notions the specification speaks of, written after its words. *)

(** The instant a [datetime] denotes, in microseconds of UTC counted from
    the start of day 0 of the proleptic Gregorian calendar. *)
Definition utc_micros (t : datetime) : Z :=
  ((toordinal t * 86400 + hour t * 3600 + minute t * 60 + second t) * 1000000
   + microsecond t)
  - match tzinfo t with
    | Some off => td_total_us off
    | None => 0
    end.

(** The signed duration "date minus now", in microseconds. *)
Definition duration_us (date now : datetime) : Z :=
  utc_micros date - utc_micros now.

Definition one_day_us : Z := 86400000000.
Definition one_hour_us : Z := 3600000000.

(** Whole days of a duration, rounded toward negative infinity. *)
Definition floor_days (us : Z) : Z := us / one_day_us.

(** The expression of [main] that picks the date value, on its own:
    [data.get('due_date') or data.get('start_date') or data.get('created')]. *)
Definition get_date_field (data : json) : M json :=
  py_or (data_get data "due_date")
        (py_or (data_get data "start_date") (data_get data "created")).

(** The branches of [format_relative_date] on [days], on their own. *)
Definition relative_label (days : Z) : string :=
  if days =? 0 then "Today"
  else if days =? 1 then "Tomorrow"
  else if days =? -1 then "Yesterday"
  else if days >? 0 then "in " ++ str_of_int days ++ " days"
  else str_of_int (Z.abs days) ++ " days ago".

(** The end of [main] from [print(result)] on: the status and the world
    the script ends with once the formatter has returned [result]. *)
Definition print_result (result : json) (w : World) : Z * World :=
  match try_except (print result)
                   (fun e =>
                      print_stderr (JStr ("Error: " ++ exc_msg e)) ;;;
                      sys_exit 1) w with
  | (Ret _, w') => (0, w')
  | (Raise _, w') => (1, w')
  | (Exit status, w') => (status, w')
  end.

(** "The first non-empty value found by checking, in order". *)
Definition first_non_empty (values : list json) : option json :=
  find truthy values.

(** "An input that is valid JSON but not a JSON object". *)
Definition is_dict (v : json) : bool :=
  match v with
  | JObj _ => true
  | _ => false
  end.

(** ** Sample runs *)

(** A world with the given input and clock reading, and nothing printed. *)
Definition world_of (input : result json) (now : datetime) : World :=
  MkWorld input now [] [].

(** 2025-10-14, 12:00:00 UTC on the clock. *)
Definition noon : datetime := Datetime 2025 10 14 12 0 0 0 None.

(** The document [{"due_date": s}]. *)
Definition task_due (s : string) : json := JObj [("due_date", JStr s)].

(** A task with a start date and, listed after it, a due date. *)
Definition task_start_due : list (string * json) :=
  [("title", JStr "write report");
   ("start_date", JStr "2025-10-15T12:00:00Z");
   ("due_date", JStr "2025-10-19T12:00:00+00:00")].

(** A task whose date fields are missing, null or empty. *)
Definition task_undated : list (string * json) :=
  [("title", JStr "someday"); ("due_date", JNull); ("created", JStr "")].

(** What [json.load] raises on a document cut off inside the string that
    starts at column 14. *)
Definition truncated_input : exn :=
  Exn JSONDecodeError
      "Unterminated string starting at: line 1 column 14 (char 13)".

(** Whether the character [c] occurs in [s]. *)
Fixpoint contains_char (c : ascii) (s : string) : bool :=
  match s with
  | EmptyString => false
  | String a rest => Ascii.eqb a c || contains_char c rest
  end.

(** Whether a value is a [str]. *)
Definition is_str (v : json) : bool :=
  match v with
  | JStr _ => true
  | _ => false
  end.

(** Calendar order on (year, month, day). *)
Definition date_before (y1 m1 d1 y2 m2 d2 : Z) : Prop :=
  y1 < y2 \/ (y1 = y2 /\ (m1 < m2 \/ (m1 = m2 /\ d1 < d2))).

(** A task whose due date is not a string. *)
Definition task_numeric_due : json :=
  JObj [("due_date", JInt 20251014); ("start_date", JStr "2025-10-15T12:00:00Z")].

(** The task of [task_start_due] with further fields around it. *)
Definition task_start_due_verbose : list (string * json) :=
  [("uid", JInt 42);
   ("due_date", JStr "2025-10-19T12:00:00+00:00");
   ("tags", JArr [JStr "work"]);
   ("start_date", JStr "2025-10-15T12:00:00Z");
   ("created", JNull)].



(** A parser that refuses any text holding a Z, as the parsers of Python
    3.7 to 3.10 do. *)
Definition fromisoformat_no_Z (date_string : string) : result datetime :=
  if contains_char "Z" date_string then Err invalid_isoformat
  else fromisoformat_iso date_string.

(** A parser that, unlike the one above, reads a final Z as UTC itself. *)
Definition fromisoformat_with_Z (date_string : string) : result datetime :=
  fromisoformat_iso (replace_char "Z" "+00:00" date_string).

(** ** Proof tactics *)

Ltac eval_tables :=
  repeat match goal with
         | |- context [nth ?n ?l ?d] =>
             let v := eval vm_compute in (nth n l d) in
             change (nth n l d) with v
         | H : context [nth ?n ?l ?d] |- _ =>
             let v := eval vm_compute in (nth n l d) in
             change (nth n l d) with v in H
         end.

Ltac eval_tests :=
  repeat match goal with
         | |- context [Z.eqb ?a ?b] =>
             let v := eval vm_compute in (Z.eqb a b) in
             match v with
             | true => change (Z.eqb a b) with true
             | false => change (Z.eqb a b) with false
             end
         | |- context [Z.gtb ?a ?b] =>
             let v := eval vm_compute in (Z.gtb a b) in
             match v with
             | true => change (Z.gtb a b) with true
             | false => change (Z.gtb a b) with false
             end
         | H : context [Z.eqb ?a ?b] |- _ =>
             let v := eval vm_compute in (Z.eqb a b) in
             match v with
             | true => change (Z.eqb a b) with true in H
             | false => change (Z.eqb a b) with false in H
             end
         end;
  cbn [andb] in *.

Ltac unfold_monad :=
  unfold try_except, bind, json_load_stdin, datetime_now_utc, lift, ret,
    raise, print, print_stderr, sys_exit in *.

(** ** Arithmetic of [timedelta] and of the ordinal *)

Lemma timedelta_new_ok (d s us : Z) :
  let T := (d * 86400 + s) * 1000000 + us in
  Z.abs (T / 86400000000) <= 999999999 ->
  exists td,
    timedelta_new d s us = Ok td
    /\ td_days td = T / 86400000000
    /\ td_total_us td = T
    /\ 0 <= td_seconds td < 86400
    /\ 0 <= td_microseconds td < 1000000.
Proof.
  intros T HT. unfold timedelta_new. cbv zeta beta iota.
  set (dd := d + s / 86400 + us / 1000000 / 86400
             + (s mod 86400 + us / 1000000 mod 86400
                + us mod 1000000 / 1000000) / 86400).
  assert (Hd : dd = T / 86400000000).
  { subst dd T. Z.div_mod_to_equations. lia. }
  assert (Hgt : (Z.abs dd >? 999999999) = false).
  { rewrite Hd, Z.gtb_ltb. apply Z.ltb_ge. exact HT. }
  rewrite Hgt. eexists. split; [reflexivity|].
  unfold td_total_us. cbn [td_days td_seconds td_microseconds].
  repeat split; try exact Hd; subst dd T; Z.div_mod_to_equations; lia.
Qed.

Lemma timedelta_add_ok (a b : timedelta) :
  Z.abs ((td_total_us a + td_total_us b) / 86400000000) <= 999999999 ->
  exists td,
    timedelta_add a b = Ok td
    /\ td_days td = (td_total_us a + td_total_us b) / 86400000000
    /\ td_total_us td = td_total_us a + td_total_us b.
Proof.
  intros H. unfold timedelta_add.
  assert (Heq : ((td_days a + td_days b) * 86400
                 + (td_seconds a + td_seconds b)) * 1000000
                + (td_microseconds a + td_microseconds b)
                = td_total_us a + td_total_us b)
    by (unfold td_total_us; ring).
  destruct (timedelta_new_ok (td_days a + td_days b)
              (td_seconds a + td_seconds b)
              (td_microseconds a + td_microseconds b))
    as (td & E & D & T & _).
  - cbv zeta. rewrite Heq. exact H.
  - cbv zeta in D, T. rewrite Heq in D, T. exists td. auto.
Qed.

Lemma timedelta_sub_ok (a b : timedelta) :
  Z.abs ((td_total_us a - td_total_us b) / 86400000000) <= 999999999 ->
  exists td,
    timedelta_sub a b = Ok td
    /\ td_days td = (td_total_us a - td_total_us b) / 86400000000
    /\ td_total_us td = td_total_us a - td_total_us b.
Proof.
  intros H. unfold timedelta_sub.
  assert (Heq : ((td_days a - td_days b) * 86400
                 + (td_seconds a - td_seconds b)) * 1000000
                + (td_microseconds a - td_microseconds b)
                = td_total_us a - td_total_us b)
    by (unfold td_total_us; ring).
  destruct (timedelta_new_ok (td_days a - td_days b)
              (td_seconds a - td_seconds b)
              (td_microseconds a - td_microseconds b))
    as (td & E & D & T & _).
  - cbv zeta. rewrite Heq. exact H.
  - cbv zeta in D, T. rewrite Heq in D, T. exists td. auto.
Qed.

Lemma timedelta_eqb_total (a b : timedelta) :
  timedelta_eqb a b = true -> td_total_us a = td_total_us b.
Proof.
  unfold timedelta_eqb, td_total_us. intros H.
  apply andb_prop in H as [H Hu]. apply andb_prop in H as [Hd Hs].
  apply Z.eqb_eq in Hd, Hs, Hu. rewrite Hd, Hs, Hu. reflexivity.
Qed.

(** A date the constructor accepts has an ordinal between 0001-01-01 and
    9999-12-31. *)
Lemma ymd2ord_bounds (y m d : Z) :
  check_date_fields y m d = true -> 1 <= _ymd2ord y m d <= 3652059.
Proof.
  unfold check_date_fields. intros H.
  repeat (apply andb_prop in H as [H ?]).
  repeat match goal with
         | H : (_ <=? _) = true |- _ => apply Z.leb_le in H
         end.
  assert (Hm : m = 1 \/ m = 2 \/ m = 3 \/ m = 4 \/ m = 5 \/ m = 6 \/ m = 7
               \/ m = 8 \/ m = 9 \/ m = 10 \/ m = 11 \/ m = 12) by lia.
  unfold _ymd2ord, _days_before_year, _days_before_month, _days_in_month in *.
  unfold _is_leap in *.
  destruct (y mod 4 =? 0) eqn:E4; [apply Z.eqb_eq in E4 | apply Z.eqb_neq in E4];
    destruct (y mod 100 =? 0) eqn:E100;
    [apply Z.eqb_eq in E100 | apply Z.eqb_neq in E100
     | apply Z.eqb_eq in E100 | apply Z.eqb_neq in E100];
    destruct (y mod 400 =? 0) eqn:E400;
    repeat (destruct Hm as [-> | Hm]); try subst m;
    eval_tables; cbn in *; Z.div_mod_to_equations; lia.
Qed.

Lemma check_time_fields_bounds (h mi s us : Z) :
  check_time_fields h mi s us = true ->
  0 <= s + mi * 60 + h * 3600 < 86400 /\ 0 <= us < 1000000.
Proof.
  unfold check_time_fields. intros H.
  repeat (apply andb_prop in H as [H ?]).
  repeat match goal with
         | H : (_ <=? _) = true |- _ => apply Z.leb_le in H
         end.
  lia.
Qed.

Lemma check_utc_offset_bounds (off : timedelta) :
  check_utc_offset off = true ->
  -86400000000 < td_total_us off < 86400000000.
Proof.
  unfold check_utc_offset. intros H.
  repeat (apply andb_prop in H as [H ?]).
  repeat match goal with
         | H : (_ <? _) = true |- _ => apply Z.ltb_lt in H
         end.
  lia.
Qed.

(** The raw difference of two accepted readings, before any offset. *)
Lemma base_difference_bounds (a b : datetime) :
  valid_datetime a = true -> valid_datetime b = true ->
  let T := ((toordinal a - toordinal b) * 86400
            + (second a + minute a * 60 + hour a * 3600
               - (second b + minute b * 60 + hour b * 3600))) * 1000000
           + (microsecond a - microsecond b) in
  -3652059 * 86400000000 < T < 3652059 * 86400000000.
Proof.
  unfold valid_datetime. intros Ha Hb.
  apply andb_prop in Ha as [Ha _]. apply andb_prop in Ha as [Hda Hta].
  apply andb_prop in Hb as [Hb _]. apply andb_prop in Hb as [Hdb Htb].
  apply ymd2ord_bounds in Hda, Hdb.
  apply check_time_fields_bounds in Hta, Htb.
  unfold toordinal. cbv zeta. lia.
Qed.

Lemma valid_offset (t : datetime) (off : timedelta) :
  valid_datetime t = true -> tzinfo t = Some off ->
  -86400000000 < td_total_us off < 86400000000.
Proof.
  unfold valid_datetime. intros H E. rewrite E in H.
  apply andb_prop in H as [_ H]. now apply check_utc_offset_bounds.
Qed.

(** Subtracting two aware, accepted [datetime] objects never raises, and
    the [timedelta] is their distance in UTC, normalised by floor. *)
Lemma datetime_sub_aware (a b : datetime) (offa offb : timedelta) :
  valid_datetime a = true -> valid_datetime b = true ->
  tzinfo a = Some offa -> tzinfo b = Some offb ->
  exists delta,
    datetime_sub a b = Ok delta
    /\ td_days delta = floor_days (duration_us a b)
    /\ td_total_us delta = duration_us a b.
Proof.
  intros Va Vb Ea Eb.
  pose proof (base_difference_bounds a b Va Vb) as HT. cbv zeta in HT.
  pose proof (valid_offset a offa Va Ea) as Ha.
  pose proof (valid_offset b offb Vb Eb) as Hb.
  unfold datetime_sub. cbv zeta.
  destruct (timedelta_new_ok (toordinal a - toordinal b)
              (second a + minute a * 60 + hour a * 3600
               - (second b + minute b * 60 + hour b * 3600))
              (microsecond a - microsecond b))
    as (base & E & D & T & _).
  { cbv zeta. Z.div_mod_to_equations. lia. }
  cbv zeta in D, T. rewrite E, Ea, Eb.
  assert (Hdur : duration_us a b
                 = td_total_us base + td_total_us offb - td_total_us offa).
  { unfold duration_us, utc_micros. rewrite Ea, Eb, T. ring. }
  unfold floor_days, one_day_us.
  destruct (timedelta_eqb offa offb) eqn:Eq.
  - apply timedelta_eqb_total in Eq. exists base.
    assert (duration_us a b = td_total_us base) by lia.
    repeat split; [ | congruence].
    rewrite D. f_equal. lia.
  - destruct (timedelta_add_ok base offb) as (t & Et & _ & Tt).
    { Z.div_mod_to_equations. lia. }
    rewrite Et.
    destruct (timedelta_sub_ok t offa) as (delta & Ed & Dd & Td).
    { rewrite Tt. Z.div_mod_to_equations. lia. }
    exists delta. rewrite Tt in Dd, Td. rewrite Hdur. auto.
Qed.


Lemma valid_aware_utc (c : datetime) :
  valid_datetime c = true -> valid_datetime (aware_utc c) = true.
Proof.
  unfold valid_datetime, aware_utc. cbn [year month day hour minute second
                                          microsecond tzinfo].
  intros H. apply andb_prop in H as [H _]. rewrite H. reflexivity.
Qed.

(** ** The sample parser

    What it returns went through the constructor, so it is in range; the
    range hypotheses of the theorems below cost nothing on parsed dates. *)

Lemma parse_tz_valid (negative : bool) (tzstr : string) (off : timedelta) :
  parse_tz negative tzstr = Some off -> check_utc_offset off = true.
Proof.
  unfold parse_tz.
  destruct (negb _); [discriminate|].
  destruct (_parse_hh_mm_ss_ff tzstr) as [[[[h mi] sec] us]|]; [|discriminate].
  destruct (timedelta_new _ _ _) as [t|e]; [|discriminate].
  destruct (check_utc_offset t) eqn:E; [|discriminate].
  intros [= <-]. exact E.
Qed.

Lemma _parse_isoformat_time_valid
      (tstr : string) (h mi sec us : Z) (off : timedelta) :
  _parse_isoformat_time tstr = Some (h, mi, sec, us, Some off) ->
  check_utc_offset off = true.
Proof.
  unfold _parse_isoformat_time.
  destruct (find_tz_sign tstr) as [i|].
  - destruct (_parse_hh_mm_ss_ff _) as [[[[h' mi'] sec'] us']|];
      [|discriminate].
    destruct (parse_tz _ _) as [off'|] eqn:E; [|discriminate].
    intros [= _ _ _ _ <-]. exact (parse_tz_valid _ _ _ E).
  - destruct (_parse_hh_mm_ss_ff tstr) as [[[[h' mi'] sec'] us']|];
      discriminate.
Qed.

Lemma datetime_new_valid
      (y m d h mi sec us : Z) (tz : option timedelta) (t : datetime) :
  datetime_new y m d h mi sec us tz = Ok t ->
  match tz with
  | None => true
  | Some off => check_utc_offset off
  end = true ->
  valid_datetime t = true.
Proof.
  unfold datetime_new.
  destruct (check_date_fields y m d) eqn:Ed; [|discriminate].
  destruct (check_time_fields h mi sec us) eqn:Et; [|discriminate].
  cbn [negb]. intros [= <-] Htz. unfold valid_datetime.
  cbn [year month day hour minute second microsecond tzinfo].
  rewrite Ed, Et, Htz. reflexivity.
Qed.

Lemma fromisoformat_iso_valid (date_string : string) (t : datetime) :
  fromisoformat_iso date_string = Ok t -> valid_datetime t = true.
Proof.
  unfold fromisoformat_iso.
  destruct (_parse_isoformat_date _) as [[[y m] d]|]; [|discriminate].
  destruct (char_at 10 date_string) as [sep|].
  - cbv zeta.
    destruct (_parse_isoformat_time _) as [[[[[h mi] sec] us] tz]|] eqn:E;
      [|discriminate].
    intros H. apply (datetime_new_valid _ _ _ _ _ _ _ _ _ H).
    destruct tz as [off|]; [|reflexivity].
    exact (_parse_isoformat_time_valid _ _ _ _ _ _ E).
  - intros H. exact (datetime_new_valid _ _ _ _ _ _ _ _ _ H eq_refl).
Qed.

(** ** How the script runs *)

Section Properties.

Variable fromisoformat : string -> result datetime.

(** The formatter always returns, and leaves the world as it found it. *)
Lemma format_relative_date_returns (date_str : json) (w : World) :
  exists r, format_relative_date fromisoformat date_str w = (Ret r, w).
Proof.
  unfold format_relative_date. unfold_monad.
  destruct (truthy date_str); cbn; [|eauto].
  destruct (str_replace_Z date_str) as [s|e]; cbn; [|eauto].
  destruct (fromisoformat s) as [date|e]; cbn; [|eauto].
  destruct (datetime_sub date (aware_utc (clock w))) as [delta|e]; cbn;
    [|eauto].
  repeat match goal with
         | |- context [if ?c then _ else _] => destruct c
         end; eauto.
Qed.

(** An empty or absent date gives the empty string. *)
Lemma format_relative_date_falsy (date_str : json) (w : World) :
  truthy date_str = false ->
  format_relative_date fromisoformat date_str w = (Ret (JStr ""), w).
Proof.
  intros H. unfold format_relative_date. rewrite H. reflexivity.
Qed.



(** For an aware date the label is chosen by the floor of the duration. *)
Lemma format_relative_date_aware
      (s : string) (date : datetime) (off : timedelta) (w : World) :
  truthy (JStr s) = true ->
  fromisoformat (replace_char "Z" "+00:00" s) = Ok date ->
  valid_datetime date = true ->
  tzinfo date = Some off ->
  valid_datetime (clock w) = true ->
  let days := floor_days (duration_us date (aware_utc (clock w))) in
  format_relative_date fromisoformat (JStr s) w
  = (Ret (JStr (if days =? 0 then "Today"
                else if days =? 1 then "Tomorrow"
                else if days =? -1 then "Yesterday"
                else if days >? 0 then "in " ++ str_of_int days ++ " days"
                else str_of_int (Z.abs days) ++ " days ago")), w).
Proof.
  intros Ht Hp Hv Hoff Hc days.
  destruct (datetime_sub_aware date (aware_utc (clock w)) off timezone_utc
              Hv (valid_aware_utc _ Hc) Hoff eq_refl)
    as (delta & Hsub & Hdays & _).
  unfold format_relative_date. rewrite Ht. cbn [negb].
  unfold_monad. cbn [str_replace_Z]. rewrite Hp, Hsub, Hdays.
  fold days.
  repeat match goal with
         | |- context [if ?c then _ else _] => destruct c
         end; reflexivity.
Qed.

(** The three lookups of [main] on an object, which never raise. *)
Lemma get_date_field_obj (members : list (string * json)) (w : World) :
  get_date_field (JObj members) w
  = (Ret (if truthy (dict_lookup members "due_date")
          then dict_lookup members "due_date"
          else if truthy (dict_lookup members "start_date")
               then dict_lookup members "start_date"
               else dict_lookup members "created"), w).
Proof.
  unfold get_date_field, py_or, data_get. unfold_monad.
  destruct (truthy (dict_lookup members "due_date")); [reflexivity|].
  destruct (truthy (dict_lookup members "start_date")); reflexivity.
Qed.

Lemma get_date_field_not_dict (data : json) (w : World) :
  is_dict data = false ->
  get_date_field data w = (Raise (no_attribute data "get"), w).
Proof.
  intros H. destruct data; try discriminate H; reflexivity.
Qed.

(** A run whose date field evaluates to [v] ends as printing the
    formatter's result for [v] ends. *)
Lemma run_script_reaches_print (w : World) (data v r : json) :
  stdin_json w = Ok data ->
  get_date_field data w = (Ret v, w) ->
  format_relative_date fromisoformat v w = (Ret r, w) ->
  run_script fromisoformat w = print_result r w.
Proof.
  intros Hin Hget Hfmt. unfold get_date_field in Hget.
  unfold run_script, print_result, main. unfold_monad.
  rewrite Hin, Hget, Hfmt.
  destruct (encode_for_stdout r); reflexivity.
Qed.

Lemma print_result_encodes (r : json) (w : World) :
  encode_for_stdout r = Ok tt -> print_result r w = (0, write_stdout r w).
Proof.
  intros H. unfold print_result. unfold_monad. rewrite H. reflexivity.
Qed.

Lemma print_result_fails (r : json) (e : exn) (w : World) :
  encode_for_stdout r = Err e ->
  print_result r w = (1, write_stderr (JStr ("Error: " ++ exc_msg e)) w).
Proof.
  intros H. unfold print_result. unfold_monad. rewrite H. reflexivity.
Qed.

(** It prints that result, with status 0, when standard output can
    encode it. *)
Lemma run_script_prints (w : World) (data v r : json) :
  stdin_json w = Ok data ->
  get_date_field data w = (Ret v, w) ->
  format_relative_date fromisoformat v w = (Ret r, w) ->
  encode_for_stdout r = Ok tt ->
  run_script fromisoformat w = (0, write_stdout r w).
Proof.
  intros Hin Hget Hfmt Henc.
  rewrite (run_script_reaches_print w data v r Hin Hget Hfmt).
  exact (print_result_encodes r w Henc).
Qed.

(** A run in which [e] is raised before the formatter is reached. *)
Lemma run_script_fatal_load (w : World) (e : exn) :
  stdin_json w = Err e ->
  run_script fromisoformat w
  = (1, write_stderr (JStr ("Error: " ++ exc_msg e)) w).
Proof.
  intros Hin. unfold run_script, main. unfold_monad.
  rewrite Hin. reflexivity.
Qed.

Lemma run_script_fatal_get (w : World) (data : json) (e : exn) :
  stdin_json w = Ok data ->
  get_date_field data w = (Raise e, w) ->
  run_script fromisoformat w
  = (1, write_stderr (JStr ("Error: " ++ exc_msg e)) w).
Proof.
  intros Hin Hget. unfold get_date_field in Hget.
  unfold run_script, main. unfold_monad.
  rewrite Hin, Hget. reflexivity.
Qed.

(** Every run ends in one of two ways: one object printed on standard
    output and status 0, or one "Error: " line on the error stream and
    status 1. *)
Lemma run_script_cases (w : World) :
  (exists r, run_script fromisoformat w = (0, write_stdout r w))
  \/ (exists e,
        run_script fromisoformat w
        = (1, write_stderr (JStr ("Error: " ++ exc_msg e)) w)).
Proof.
  destruct (stdin_json w) as [data|e] eqn:Hin.
  - destruct (is_dict data) eqn:Hd.
    + destruct data as [| | | | | |members]; try discriminate Hd.
      destruct (format_relative_date_returns
                  (if truthy (dict_lookup members "due_date")
                   then dict_lookup members "due_date"
                   else if truthy (dict_lookup members "start_date")
                        then dict_lookup members "start_date"
                        else dict_lookup members "created") w) as [r Hr].
      rewrite (run_script_reaches_print w _ _ r Hin
                 (get_date_field_obj members w) Hr).
      destruct (encode_for_stdout r) as [[]|e] eqn:Henc.
      * left. exists r. exact (print_result_encodes r w Henc).
      * right. exists e. exact (print_result_fails r e w Henc).
    + right. exists (no_attribute data "get").
      exact (run_script_fatal_get w data _ Hin
               (get_date_field_not_dict data w Hd)).
  - right. exists e. exact (run_script_fatal_load w e Hin).
Qed.



(** *** The day difference *)

(** C2.  For a date string that parses to an aware [datetime], the
    subtraction [date - now] in the formatter succeeds, the formatter
    returns the label of its branch for [delta.days], and [delta.days] is
    the floor of the signed duration date minus now counted in whole days:
    the one integer [d] with [d days <= duration < (d + 1) days].  A
    duration of exactly one day gives 1, one of 23 hours gives 0, and one
    of -25 hours gives -2. *)
Theorem day_difference_is_floor
        (s : string) (date : datetime) (off : timedelta) (w : World) :
  truthy (JStr s) = true ->
  fromisoformat (replace_char "Z" "+00:00" s) = Ok date ->
  valid_datetime date = true ->
  tzinfo date = Some off ->
  valid_datetime (clock w) = true ->
  let duration := duration_us date (aware_utc (clock w)) in
  exists delta,
    datetime_sub date (aware_utc (clock w)) = Ok delta
    /\ format_relative_date fromisoformat (JStr s) w
       = (Ret (JStr (relative_label (td_days delta))), w)
    /\ td_days delta = floor_days duration
    /\ td_days delta * one_day_us <= duration
       < (td_days delta + 1) * one_day_us
    /\ (duration = one_day_us -> td_days delta = 1)
    /\ (duration = 23 * one_hour_us -> td_days delta = 0)
    /\ (duration = -25 * one_hour_us -> td_days delta = -2).
Proof.
  intros Ht Hp Hv Hoff Hc duration.
  destruct (datetime_sub_aware date (aware_utc (clock w)) off timezone_utc
              Hv (valid_aware_utc _ Hc) Hoff eq_refl)
    as (delta & Hsub & Hdays & _).
  exists delta. fold duration in Hdays.
  split; [exact Hsub|]. split.
  { unfold format_relative_date. rewrite Ht. cbn [negb].
    unfold_monad. cbn [str_replace_Z]. rewrite Hp, Hsub.
    unfold relative_label.
    repeat match goal with
           | |- context [if ?c then _ else _] => destruct c
           end; reflexivity. }
  split; [exact Hdays|].
  rewrite Hdays. unfold floor_days, one_day_us, one_hour_us.
  repeat split; try (intros ->; reflexivity);
    Z.div_mod_to_equations; lia.
Qed.

(** *** The formatter *)

(** A date that is midnight UTC of the clock's own day is labelled
    "Today" only at the stroke of midnight; at any later time of that
    day the floor of the (negative) duration is -1. *)
Lemma due_today_midnight_label (s : string) (w : World) :
  truthy (JStr s) = true ->
  valid_datetime (clock w) = true ->
  fromisoformat (replace_char "Z" "+00:00" s)
  = Ok (Datetime (year (clock w)) (month (clock w)) (day (clock w))
                 0 0 0 0 (Some timezone_utc)) ->
  format_relative_date fromisoformat (JStr s) w
  = (Ret (JStr (if (hour (clock w) =? 0) && (minute (clock w) =? 0)
                   && (second (clock w) =? 0)
                   && (microsecond (clock w) =? 0)
                then "Today" else "Yesterday")), w).
Proof.
  intros Ht Hc Hp.
  assert (Hv : valid_datetime
                 (Datetime (year (clock w)) (month (clock w))
                           (day (clock w)) 0 0 0 0 (Some timezone_utc))
               = true).
  { unfold valid_datetime in *. cbn [year month day hour minute second
                                      microsecond tzinfo].
    apply andb_prop in Hc as [Hc _]. apply andb_prop in Hc as [Hc _].
    rewrite Hc. reflexivity. }
  rewrite (format_relative_date_aware s _ timezone_utc w Ht Hp Hv eq_refl Hc).
  cbv zeta.
  unfold valid_datetime in Hc. apply andb_prop in Hc as [Hc _].
  apply andb_prop in Hc as [_ Hc].
  unfold check_time_fields in Hc.
  repeat (apply andb_prop in Hc as [Hc ?]).
  repeat match goal with
         | H : (_ <=? _) = true |- _ => apply Z.leb_le in H
         end.
  set (days := floor_days _).
  assert (Hdays : days = if (hour (clock w) =? 0) && (minute (clock w) =? 0)
                            && (second (clock w) =? 0)
                            && (microsecond (clock w) =? 0)
                         then 0 else -1).
  { subst days. unfold floor_days, duration_us, utc_micros, one_day_us,
      toordinal, aware_utc, td_total_us, timezone_utc.
    cbn [year month day hour minute second microsecond tzinfo
         td_days td_seconds td_microseconds].
    destruct (hour (clock w) =? 0) eqn:Eh;
      destruct (minute (clock w) =? 0) eqn:Em;
      destruct (second (clock w) =? 0) eqn:Es;
      destruct (microsecond (clock w) =? 0) eqn:Eu;
      cbn [andb];
      repeat match goal with
             | H : (_ =? _) = true |- _ => apply Z.eqb_eq in H
             | H : (_ =? _) = false |- _ => apply Z.eqb_neq in H
             end;
      Z.div_mod_to_equations; lia. }
  rewrite Hdays.
  destruct ((hour (clock w) =? 0) && (minute (clock w) =? 0)
            && (second (clock w) =? 0) && (microsecond (clock w) =? 0));
    reflexivity.
Qed.

(** C1.  When the date value is midnight UTC of the clock's own day, the
    script prints "Today" if the clock stands at 00:00:00.000000 exactly
    and "Yesterday" at any later time of that day, with status 0. *)
Theorem due_today_midnight_output (w : World) (data : json) (s : string) :
  stdin_json w = Ok data ->
  get_date_field data w = (Ret (JStr s), w) ->
  truthy (JStr s) = true ->
  valid_datetime (clock w) = true ->
  fromisoformat (replace_char "Z" "+00:00" s)
  = Ok (Datetime (year (clock w)) (month (clock w)) (day (clock w))
                 0 0 0 0 (Some timezone_utc)) ->
  run_script fromisoformat w
  = (0, write_stdout
          (JStr (if (hour (clock w) =? 0) && (minute (clock w) =? 0)
                    && (second (clock w) =? 0)
                    && (microsecond (clock w) =? 0)
                 then "Today" else "Yesterday")) w).
Proof.
  intros Hin Hget Ht Hc Hp.
  apply (run_script_prints w data (JStr s) _ Hin Hget
           (due_today_midnight_label s w Ht Hc Hp)).
  destruct ((hour (clock w) =? 0) && (minute (clock w) =? 0)
            && (second (clock w) =? 0) && (microsecond (clock w) =? 0));
    reflexivity.
Qed.

(** C3.  For a date string that parses to an aware [datetime], with [d]
    the floor day difference: the formatter returns "Today" for d = 0,
    "Tomorrow" for d = 1, "Yesterday" for d = -1, "in {d} days" for
    d > 1 and "{|d|} days ago" for d < -1. *)
Theorem label_follows_day_difference
        (s : string) (date : datetime) (off : timedelta) (w : World) :
  truthy (JStr s) = true ->
  fromisoformat (replace_char "Z" "+00:00" s) = Ok date ->
  valid_datetime date = true ->
  tzinfo date = Some off ->
  valid_datetime (clock w) = true ->
  let d := floor_days (duration_us date (aware_utc (clock w))) in
  exists label,
    format_relative_date fromisoformat (JStr s) w = (Ret (JStr label), w)
    /\ (d = 0 -> label = "Today")
    /\ (d = 1 -> label = "Tomorrow")
    /\ (d = -1 -> label = "Yesterday")
    /\ (d > 1 -> label = "in " ++ str_of_int d ++ " days")
    /\ (d < -1 -> label = str_of_int (Z.abs d) ++ " days ago").
Proof.
  intros Ht Hp Hv Hoff Hc d.
  eexists. split.
  - exact (format_relative_date_aware s date off w Ht Hp Hv Hoff Hc).
  - fold d. repeat split; intros Hd.
    + rewrite Hd. reflexivity.
    + rewrite Hd. reflexivity.
    + rewrite Hd. reflexivity.
    + destruct (Z.eqb_spec d 0); [lia|].
      destruct (Z.eqb_spec d 1); [lia|].
      destruct (Z.eqb_spec d (-1)); [lia|].
      destruct (Z.gtb_spec d 0); [reflexivity|lia].
    + destruct (Z.eqb_spec d 0); [lia|].
      destruct (Z.eqb_spec d 1); [lia|].
      destruct (Z.eqb_spec d (-1)); [lia|].
      destruct (Z.gtb_spec d 0); [lia|reflexivity].
Qed.

(** C8.  The formatter is a function of the date string and the clock
    reading alone: two runs in worlds that agree on the clock return the
    same result, whatever else differs, and neither run changes its
    world. *)
Theorem format_relative_date_deterministic
        (date_str : json) (w1 w2 : World) :
  clock w1 = clock w2 ->
  fst (format_relative_date fromisoformat date_str w1)
  = fst (format_relative_date fromisoformat date_str w2)
  /\ snd (format_relative_date fromisoformat date_str w1) = w1
  /\ snd (format_relative_date fromisoformat date_str w2) = w2.
Proof.
  intros Hclock. unfold format_relative_date. unfold_monad.
  destruct (truthy date_str); cbn; [|auto].
  destruct (str_replace_Z date_str) as [s|e]; cbn; [|auto].
  destruct (fromisoformat s) as [date|e]; cbn; [|auto].
  rewrite Hclock.
  destruct (datetime_sub date (aware_utc (clock w2))) as [delta|e]; cbn;
    [|auto].
  repeat match goal with
         | |- context [if ?c then _ else _] => destruct c
         end; auto.
Qed.

(** *** The whole script *)


(** C5.  When the input cannot be read or parsed as JSON, the script
    writes one line, "Error: " followed by the text of the error, to the
    error stream, writes nothing to standard output, and ends with
    status 1. *)
Theorem unreadable_input_is_fatal (w : World) (e : exn) :
  stdin_json w = Err e ->
  run_script fromisoformat w
  = (1, write_stderr (JStr ("Error: " ++ exc_msg e)) w)
  /\ stdout (snd (run_script fromisoformat w)) = stdout w
  /\ stderr (snd (run_script fromisoformat w))
     = (stderr w ++ [JStr ("Error: " ++ exc_msg e)])%list.
Proof.
  intros Hin. rewrite (run_script_fatal_load w e Hin). auto.
Qed.

(** C6.  The value handed to the formatter is the first non-empty one
    among [due_date], [start_date] and [created], in that order, and the
    run ends as printing the formatter's result for it ends (that result
    is the line printed whenever standard output can encode it); so a
    non-empty [due_date] is the one used, whatever [start_date] holds. *)
Theorem date_field_priority
        (w : World) (members : list (string * json)) (v : json) :
  stdin_json w = Ok (JObj members) ->
  first_non_empty [dict_lookup members "due_date";
                   dict_lookup members "start_date";
                   dict_lookup members "created"] = Some v ->
  get_date_field (JObj members) w = (Ret v, w)
  /\ (truthy (dict_lookup members "due_date") = true ->
      v = dict_lookup members "due_date")
  /\ exists r,
      format_relative_date fromisoformat v w = (Ret r, w)
      /\ run_script fromisoformat w = print_result r w
      /\ (encode_for_stdout r = Ok tt ->
          run_script fromisoformat w = (0, write_stdout r w)).
Proof.
  intros Hin Hfirst.
  assert (Hget : get_date_field (JObj members) w = (Ret v, w)).
  { rewrite get_date_field_obj. unfold first_non_empty in Hfirst.
    cbn [find] in Hfirst.
    destruct (truthy (dict_lookup members "due_date"));
      [congruence|].
    destruct (truthy (dict_lookup members "start_date"));
      [congruence|].
    destruct (truthy (dict_lookup members "created")); congruence. }
  split; [exact Hget|]. split.
  - intros Hdue. unfold first_non_empty in Hfirst. cbn [find] in Hfirst.
    rewrite Hdue in Hfirst. congruence.
  - destruct (format_relative_date_returns v w) as [r Hr].
    exists r. split; [exact Hr|]. split.
    + exact (run_script_reaches_print w (JObj members) v r Hin Hget Hr).
    + intros Henc.
      exact (run_script_prints w (JObj members) v r Hin Hget Hr Henc).
Qed.

(** C7.  When [due_date], [start_date] and [created] are each absent,
    null or empty, the script prints the empty string and ends with
    status 0. *)
Theorem no_date_prints_empty_line
        (w : World) (members : list (string * json)) :
  stdin_json w = Ok (JObj members) ->
  truthy (dict_lookup members "due_date") = false ->
  truthy (dict_lookup members "start_date") = false ->
  truthy (dict_lookup members "created") = false ->
  run_script fromisoformat w = (0, write_stdout (JStr "") w).
Proof.
  intros Hin Hdue Hstart Hcreated.
  apply (run_script_prints w (JObj members)
           (dict_lookup members "created") (JStr "") Hin).
  - rewrite get_date_field_obj, Hdue, Hstart. reflexivity.
  - apply format_relative_date_falsy. exact Hcreated.
  - reflexivity.
Qed.


(** C10.  When the input is valid JSON but not an object, the first
    [data.get] raises [AttributeError], and the script takes the fatal
    path: one "Error: " line on the error stream, nothing on standard
    output, status 1. *)
Theorem non_object_input_is_fatal (w : World) (data : json) :
  stdin_json w = Ok data ->
  is_dict data = false ->
  run_script fromisoformat w
  = (1, write_stderr
          (JStr ("Error: '" ++ type_name data
                 ++ "' object has no attribute 'get'")) w)
  /\ stdout (snd (run_script fromisoformat w)) = stdout w.
Proof.
  intros Hin Hnot.
  rewrite (run_script_fatal_get w data (no_attribute data "get") Hin
             (get_date_field_not_dict data w Hnot)).
  split; reflexivity.
Qed.

End Properties.

(** ** The script on sample input *)

(** With [due_date] set to midnight UTC of 2025-10-14 and the clock at
    noon of that same day, the script prints "Yesterday", not "Today": the
    duration is minus twelve hours and its floor in days is -1. *)
Theorem due_today_midnight_at_noon :
  run_script fromisoformat_iso
             (world_of (Ok (task_due "2025-10-14T00:00:00Z")) noon)
  = (0, MkWorld (Ok (task_due "2025-10-14T00:00:00Z")) noon
                [JStr "Yesterday"] []).
Proof. vm_compute. reflexivity. Qed.

Lemma due_today_midnight_output_witness :
  run_script fromisoformat_iso
             (world_of (Ok (task_due "2025-10-14T00:00:00Z"))
                       (Datetime 2025 10 14 0 0 0 1 None))
  = (0, MkWorld (Ok (task_due "2025-10-14T00:00:00Z"))
                (Datetime 2025 10 14 0 0 0 1 None) [JStr "Yesterday"] []).
Proof.
  apply (due_today_midnight_output fromisoformat_iso
           (world_of (Ok (task_due "2025-10-14T00:00:00Z"))
                     (Datetime 2025 10 14 0 0 0 1 None))
           (task_due "2025-10-14T00:00:00Z") "2025-10-14T00:00:00Z");
    reflexivity.
Defined.

(** A string that parses, to a naive [datetime], for which the formatter
    has no day difference: the subtraction raises and the string comes
    back. *)
Lemma naive_date_has_no_day_difference :
  fromisoformat_iso (replace_char "Z" "+00:00" "2025-10-14T09:00:00")
  = Ok (Datetime 2025 10 14 9 0 0 0 None)
  /\ datetime_sub (Datetime 2025 10 14 9 0 0 0 None) (aware_utc noon)
     = Err (Exn TypeError
                "can't subtract offset-naive and offset-aware datetimes")
  /\ format_relative_date fromisoformat_iso (JStr "2025-10-14T09:00:00")
                          (world_of (Ok JNull) noon)
     = (Ret (JStr "2025-10-14T09:00:00"), world_of (Ok JNull) noon).
Proof. vm_compute. repeat split; reflexivity. Qed.

(** A string that parses, to midnight of 2025-10-14, twelve hours before
    the clock, so that a floor day difference would be -1: the formatter
    returns the string, not "Yesterday". *)
Lemma naive_date_gets_no_label :
  fromisoformat_iso (replace_char "Z" "+00:00" "2025-10-14")
  = Ok (Datetime 2025 10 14 0 0 0 0 None)
  /\ floor_days (duration_us (Datetime 2025 10 14 0 0 0 0 None)
                             (aware_utc noon)) = -1
  /\ format_relative_date fromisoformat_iso (JStr "2025-10-14")
                          (world_of (Ok JNull) noon)
     = (Ret (JStr "2025-10-14"), world_of (Ok JNull) noon)
  /\ JStr "2025-10-14" <> JStr "Yesterday".
Proof. vm_compute. repeat split; try reflexivity. discriminate. Qed.



Example due_today_midnight_at_midnight :
  run_script fromisoformat_iso
             (world_of (Ok (task_due "2025-10-14T00:00:00Z"))
                       (Datetime 2025 10 14 0 0 0 0 None))
  = (0, MkWorld (Ok (task_due "2025-10-14T00:00:00Z"))
                (Datetime 2025 10 14 0 0 0 0 None) [JStr "Today"] []).
Proof. vm_compute. reflexivity. Qed.

Example one_day_ahead_is_tomorrow :
  stdout (snd (run_script fromisoformat_iso
                 (world_of (Ok (task_due "2025-10-15T12:00:00Z")) noon)))
  = [JStr "Tomorrow"].
Proof. vm_compute. reflexivity. Qed.

Example one_day_behind_is_yesterday :
  stdout (snd (run_script fromisoformat_iso
                 (world_of (Ok (task_due "2025-10-13T12:00:00Z")) noon)))
  = [JStr "Yesterday"].
Proof. vm_compute. reflexivity. Qed.

Example five_days_behind :
  stdout (snd (run_script fromisoformat_iso
                 (world_of (Ok (task_due "2025-10-09T12:00:00Z")) noon)))
  = [JStr "5 days ago"].
Proof. vm_compute. reflexivity. Qed.

Example offset_is_taken_into_account :
  stdout (snd (run_script fromisoformat_iso
                 (world_of (Ok (task_due "2025-10-15T14:00:00+02:00")) noon)))
  = [JStr "Tomorrow"].
Proof. vm_compute. reflexivity. Qed.

Example due_date_wins_over_start_date :
  stdout (snd (run_script fromisoformat_iso
                 (world_of (Ok (JObj task_start_due)) noon)))
  = [JStr "in 5 days"].
Proof. vm_compute. reflexivity. Qed.

Example number_as_date_is_printed_back :
  run_script fromisoformat_iso
             (world_of (Ok (JObj [("due_date", JInt 5)])) noon)
  = (0, MkWorld (Ok (JObj [("due_date", JInt 5)])) noon [JInt 5] []).
Proof. vm_compute. reflexivity. Qed.

Lemma day_difference_is_floor_witness :
  exists delta,
    datetime_sub (Datetime 2025 10 13 11 0 0 0 (Some timezone_utc))
                 (aware_utc noon) = Ok delta
    /\ td_days delta = -2
    /\ format_relative_date fromisoformat_iso (JStr "2025-10-13T11:00:00Z")
                            (world_of (Ok JNull) noon)
       = (Ret (JStr "2 days ago"), world_of (Ok JNull) noon).
Proof.
  destruct (day_difference_is_floor fromisoformat_iso "2025-10-13T11:00:00Z"
              (Datetime 2025 10 13 11 0 0 0 (Some timezone_utc))
              timezone_utc (world_of (Ok JNull) noon)
              eq_refl eq_refl eq_refl eq_refl eq_refl)
    as (delta & Hsub & Hfmt & _ & _ & _ & _ & H25).
  exists delta. split; [exact Hsub|].
  assert (Hd : td_days delta = -2) by (apply H25; reflexivity).
  split; [exact Hd|]. rewrite Hfmt, Hd. reflexivity.
Defined.

Lemma label_follows_day_difference_witness :
  format_relative_date fromisoformat_iso (JStr "2025-10-19T12:00:00Z")
                       (world_of (Ok (task_due "2025-10-19T12:00:00Z")) noon)
  = (Ret (JStr "in 5 days"),
     world_of (Ok (task_due "2025-10-19T12:00:00Z")) noon).
Proof.
  destruct (label_follows_day_difference fromisoformat_iso
              "2025-10-19T12:00:00Z"
              (Datetime 2025 10 19 12 0 0 0 (Some timezone_utc))
              timezone_utc
              (world_of (Ok (task_due "2025-10-19T12:00:00Z")) noon)
              eq_refl eq_refl eq_refl eq_refl eq_refl)
    as (label & Hfmt & _ & _ & _ & Hin & _).
  rewrite Hfmt, Hin; reflexivity.
Defined.

Lemma format_relative_date_deterministic_witness :
  fst (format_relative_date fromisoformat_iso (JStr "2025-10-19T12:00:00Z")
         (world_of (Ok (task_due "2025-10-19T12:00:00Z")) noon))
  = fst (format_relative_date fromisoformat_iso (JStr "2025-10-19T12:00:00Z")
           (MkWorld (Err truncated_input) noon [JStr "Today"] [JNull])).
Proof.
  apply (format_relative_date_deterministic fromisoformat_iso
           (JStr "2025-10-19T12:00:00Z")
           (world_of (Ok (task_due "2025-10-19T12:00:00Z")) noon)
           (MkWorld (Err truncated_input) noon [JStr "Today"] [JNull])).
  reflexivity.
Defined.


Lemma unreadable_input_is_fatal_witness :
  run_script fromisoformat_iso (world_of (Err truncated_input) noon)
  = (1, MkWorld (Err truncated_input) noon []
                [JStr "Error: Unterminated string starting at: line 1 column 14 (char 13)"]).
Proof.
  apply (unreadable_input_is_fatal fromisoformat_iso
           (world_of (Err truncated_input) noon) truncated_input).
  reflexivity.
Defined.

Lemma date_field_priority_witness :
  get_date_field (JObj task_start_due) (world_of (Ok (JObj task_start_due)) noon)
  = (Ret (JStr "2025-10-19T12:00:00+00:00"),
     world_of (Ok (JObj task_start_due)) noon)
  /\ run_script fromisoformat_iso (world_of (Ok (JObj task_start_due)) noon)
     = (0, MkWorld (Ok (JObj task_start_due)) noon [JStr "in 5 days"] []).
Proof.
  destruct (date_field_priority fromisoformat_iso
              (world_of (Ok (JObj task_start_due)) noon) task_start_due
              (JStr "2025-10-19T12:00:00+00:00") eq_refl eq_refl)
    as (Hget & _ & r & Hfmt & Hrun & _).
  split; [exact Hget|].
  vm_compute in Hfmt. injection Hfmt as <-.
  rewrite Hrun. reflexivity.
Defined.

Lemma no_date_prints_empty_line_witness :
  run_script fromisoformat_iso (world_of (Ok (JObj task_undated)) noon)
  = (0, MkWorld (Ok (JObj task_undated)) noon [JStr ""] []).
Proof.
  apply (no_date_prints_empty_line fromisoformat_iso
           (world_of (Ok (JObj task_undated)) noon) task_undated);
    reflexivity.
Defined.


Example naive_date_only_is_echoed :
  run_script fromisoformat_iso (world_of (Ok (task_due "2025-10-14")) noon)
  = (0, MkWorld (Ok (task_due "2025-10-14")) noon [JStr "2025-10-14"] []).
Proof. vm_compute. reflexivity. Qed.

Lemma non_object_input_is_fatal_witness :
  run_script fromisoformat_iso
             (world_of (Ok (JArr [JStr "2025-10-14T00:00:00Z"])) noon)
  = (1, MkWorld (Ok (JArr [JStr "2025-10-14T00:00:00Z"])) noon []
                [JStr "Error: 'list' object has no attribute 'get'"]).
Proof.
  apply (non_object_input_is_fatal fromisoformat_iso
           (world_of (Ok (JArr [JStr "2025-10-14T00:00:00Z"])) noon)
           (JArr [JStr "2025-10-14T00:00:00Z"]));
    reflexivity.
Defined.

(** ** Further properties of the script *)

Lemma contains_char_app (c : ascii) (a b : string) :
  contains_char c (a ++ b) = contains_char c a || contains_char c b.
Proof.
  induction a as [|x a IH]; cbn; [reflexivity|].
  rewrite IH. apply orb_assoc.
Qed.

Lemma string_app_assoc (a b c : string) : (a ++ b) ++ c = a ++ (b ++ c).
Proof.
  induction a as [|x a IH]; cbn; [reflexivity|]. now rewrite IH.
Qed.

Lemma replace_char_app (old : ascii) (new a b : string) :
  replace_char old new (a ++ b)
  = replace_char old new a ++ replace_char old new b.
Proof.
  induction a as [|x a IH]; [reflexivity|].
  cbn [append replace_char]. rewrite IH.
  destruct (Ascii.eqb x old); [|reflexivity].
  symmetry. apply string_app_assoc.
Qed.

Lemma replace_char_absent (old : ascii) (new s : string) :
  contains_char old s = false -> replace_char old new s = s.
Proof.
  induction s as [|x s IH]; cbn; [reflexivity|].
  intros H. apply orb_false_elim in H as [Hx Hs].
  rewrite Hx, (IH Hs). reflexivity.
Qed.

Lemma replace_char_removes (old : ascii) (new s : string) :
  contains_char old new = false ->
  contains_char old (replace_char old new s) = false.
Proof.
  intros Hnew. induction s as [|x s IH]; cbn; [reflexivity|].
  destruct (Ascii.eqb x old) eqn:E.
  - rewrite contains_char_app, Hnew, IH. reflexivity.
  - cbn. rewrite E, IH. reflexivity.
Qed.

Lemma truthy_app_nonempty (a b : string) :
  b <> "" -> truthy (JStr (a ++ b)) = true.
Proof.
  intros Hb. cbn. apply negb_true_iff, String.eqb_neq.
  destruct a; cbn; [exact Hb|discriminate].
Qed.

Section Further.

Variable fromisoformat : string -> result datetime.

(** The formatter's result depends on the world through the clock only. *)
Lemma format_relative_date_clock_only (date_str : json) (w1 w2 : World) :
  clock w1 = clock w2 ->
  fst (format_relative_date fromisoformat date_str w1)
  = fst (format_relative_date fromisoformat date_str w2).
Proof.
  intros Hclock. unfold format_relative_date. unfold_monad.
  destruct (truthy date_str); cbn; [|reflexivity].
  destruct (str_replace_Z date_str) as [s|e]; cbn; [|reflexivity].
  destruct (fromisoformat s) as [date|e]; cbn; [|reflexivity].
  rewrite Hclock.
  destruct (datetime_sub date (aware_utc (clock w2))) as [delta|e]; cbn;
    [|reflexivity].
  repeat match goal with
         | |- context [if ?c then _ else _] => destruct c
         end; reflexivity.
Qed.

(** X1.  Whatever it is given, the formatter returns without raising and
    without touching the world, and what it returns is the empty string,
    its own argument as it came, one of the three day names, or a count
    of at least two days. *)
Theorem formatter_result_shapes (date_str : json) (w : World) :
  exists r,
    format_relative_date fromisoformat date_str w = (Ret r, w)
    /\ (r = JStr "" \/ r = date_str
        \/ r = JStr "Today" \/ r = JStr "Tomorrow" \/ r = JStr "Yesterday"
        \/ (exists n, 2 <= n /\ r = JStr ("in " ++ str_of_int n ++ " days"))
        \/ (exists n, 2 <= n /\ r = JStr (str_of_int n ++ " days ago"))).
Proof.
  unfold format_relative_date. unfold_monad.
  destruct (truthy date_str); cbn; [|eauto].
  destruct (str_replace_Z date_str) as [s|e]; cbn; [|eauto].
  destruct (fromisoformat s) as [date|e]; cbn; [|eauto].
  destruct (datetime_sub date (aware_utc (clock w))) as [delta|e]; cbn;
    [|eauto].
  destruct (Z.eqb_spec (td_days delta) 0).
  { eexists. split; [reflexivity|]. do 2 right. left. reflexivity. }
  destruct (Z.eqb_spec (td_days delta) 1).
  { eexists. split; [reflexivity|]. do 3 right. left. reflexivity. }
  destruct (Z.eqb_spec (td_days delta) (-1)).
  { eexists. split; [reflexivity|]. do 4 right. left. reflexivity. }
  destruct (Z.gtb_spec (td_days delta) 0).
  - eexists. split; [reflexivity|].
    do 5 right. left. exists (td_days delta). split; [lia|reflexivity].
  - eexists. split; [reflexivity|].
    do 6 right. exists (Z.abs (td_days delta)). split; [lia|reflexivity].
Qed.

(** X2.  Every run writes exactly one object, on exactly one stream, after what
    was written before: either on standard output, with status 0, or an
    "Error: " text on the error stream, with status 1. *)
Theorem run_script_writes_one_line (w : World) :
  (exists r,
      run_script fromisoformat w = (0, write_stdout r w)
      /\ stdout (snd (run_script fromisoformat w)) = (stdout w ++ [r])%list
      /\ stderr (snd (run_script fromisoformat w)) = stderr w)
  \/ (exists e,
         run_script fromisoformat w
         = (1, write_stderr (JStr ("Error: " ++ exc_msg e)) w)
         /\ stdout (snd (run_script fromisoformat w)) = stdout w
         /\ stderr (snd (run_script fromisoformat w))
            = (stderr w ++ [JStr ("Error: " ++ exc_msg e)])%list).
Proof.
  destruct (run_script_cases fromisoformat w) as [[r Hr]|[e He]].
  - left. exists r. rewrite Hr. auto.
  - right. exists e. rewrite He. auto.
Qed.


(** X4.  A date value that is not a string but counts as true (a non-zero
    number, [true], a non-empty list or object) is printed back as it is,
    with status 0: calling [replace] on it raises inside the formatter. *)
Theorem non_string_date_is_printed_back (w : World) (data v : json) :
  stdin_json w = Ok data ->
  get_date_field data w = (Ret v, w) ->
  truthy v = true ->
  is_str v = false ->
  run_script fromisoformat w = (0, write_stdout v w).
Proof.
  intros Hin Hget Ht Hs.
  apply (run_script_prints fromisoformat w data v v Hin Hget).
  - unfold format_relative_date. rewrite Ht. cbn [negb]. unfold_monad.
    destruct v; try discriminate Hs; reflexivity.
  - destruct v; try discriminate Hs; reflexivity.
Qed.

(** X5.  Only [due_date], [start_date] and [created] are consulted: two
    objects that agree on these three lookups end the same way, whatever
    else they contain: both runs print the same object with status 0, or
    both write the same error line with status 1. *)
Theorem other_fields_are_ignored
        (w1 w2 : World) (members1 members2 : list (string * json)) :
  stdin_json w1 = Ok (JObj members1) ->
  stdin_json w2 = Ok (JObj members2) ->
  clock w1 = clock w2 ->
  dict_lookup members1 "due_date" = dict_lookup members2 "due_date" ->
  dict_lookup members1 "start_date" = dict_lookup members2 "start_date" ->
  dict_lookup members1 "created" = dict_lookup members2 "created" ->
  (exists r,
      run_script fromisoformat w1 = (0, write_stdout r w1)
      /\ run_script fromisoformat w2 = (0, write_stdout r w2))
  \/ (exists e,
         run_script fromisoformat w1
         = (1, write_stderr (JStr ("Error: " ++ exc_msg e)) w1)
         /\ run_script fromisoformat w2
            = (1, write_stderr (JStr ("Error: " ++ exc_msg e)) w2)).
Proof.
  intros Hin1 Hin2 Hclock Hdue Hstart Hcreated.
  pose proof (get_date_field_obj members1 w1) as Hg1.
  pose proof (get_date_field_obj members2 w2) as Hg2.
  rewrite <- Hdue, <- Hstart, <- Hcreated in Hg2.
  set (v := if truthy (dict_lookup members1 "due_date")
            then dict_lookup members1 "due_date"
            else if truthy (dict_lookup members1 "start_date")
                 then dict_lookup members1 "start_date"
                 else dict_lookup members1 "created") in *.
  destruct (format_relative_date_returns fromisoformat v w1) as [r Hr1].
  destruct (format_relative_date_returns fromisoformat v w2) as [r2 Hr2].
  pose proof (format_relative_date_clock_only v w1 w2 Hclock) as Heq.
  rewrite Hr1, Hr2 in Heq. cbn in Heq. injection Heq as <-.
  rewrite (run_script_reaches_print fromisoformat w1 _ v r Hin1 Hg1 Hr1).
  rewrite (run_script_reaches_print fromisoformat w2 _ v r Hin2 Hg2 Hr2).
  destruct (encode_for_stdout r) as [[]|e] eqn:Henc.
  - left. exists r.
    split; exact (print_result_encodes r _ Henc).
  - right. exists e.
    split; exact (print_result_fails r e _ Henc).
Qed.

(** X6.  A final Z is read as the offset [+00:00]: when the text before it
    holds no Z, the two spellings of a date that parses give the same
    result. *)
Theorem trailing_Z_is_utc_offset
        (body : string) (date : datetime) (off : timedelta) (w : World) :
  contains_char "Z" body = false ->
  fromisoformat (body ++ "+00:00") = Ok date ->
  valid_datetime date = true ->
  tzinfo date = Some off ->
  valid_datetime (clock w) = true ->
  format_relative_date fromisoformat (JStr (body ++ "Z")) w
  = format_relative_date fromisoformat (JStr (body ++ "+00:00")) w.
Proof.
  intros Hbody Hp Hv Hoff Hc.
  assert (HZ : replace_char "Z" "+00:00" (body ++ "Z") = body ++ "+00:00").
  { rewrite replace_char_app, (replace_char_absent _ _ body Hbody).
    reflexivity. }
  assert (Hplus : replace_char "Z" "+00:00" (body ++ "+00:00")
                  = body ++ "+00:00").
  { apply replace_char_absent. rewrite contains_char_app, Hbody.
    reflexivity. }
  rewrite (format_relative_date_aware fromisoformat (body ++ "Z") date off w).
  - rewrite (format_relative_date_aware fromisoformat (body ++ "+00:00")
               date off w); auto.
    + apply truthy_app_nonempty. discriminate.
    + rewrite Hplus. exact Hp.
  - apply truthy_app_nonempty. discriminate.
  - rewrite HZ. exact Hp.
  - exact Hv.
  - exact Hoff.
  - exact Hc.
Qed.

End Further.

(** X7.  The parser only ever sees text without a Z, so how a parser treats Z
    makes no difference to the script: two parsers that agree on Z-free
    text give the same run. *)
Theorem parser_handling_of_Z_is_irrelevant
        (parser1 parser2 : string -> result datetime) (w : World) :
  (forall s, contains_char "Z" s = false -> parser1 s = parser2 s) ->
  run_script parser1 w = run_script parser2 w.
Proof.
  intros Hagree.
  assert (Hfmt : forall v w', format_relative_date parser1 v w'
                              = format_relative_date parser2 v w').
  { intros v w'. unfold format_relative_date.
    destruct (truthy v); cbn [negb]; [|reflexivity].
    unfold_monad. destruct v; try reflexivity.
    cbn [str_replace_Z].
    rewrite (Hagree (replace_char "Z" "+00:00" s)
               (replace_char_removes "Z" "+00:00" s eq_refl)).
    reflexivity. }
  unfold run_script, main. unfold_monad.
  destruct (stdin_json w) as [data|e]; [|reflexivity].
  destruct (py_or _ _ w) as [[v|e|c] w']; try reflexivity.
  rewrite Hfmt. reflexivity.
Qed.

(** ** Further properties of the day difference *)

(** X8.  The longer the signed duration, the larger the day difference: a later
    date never gets a smaller count, and as the clock advances the count
    of a given date never grows. *)
Theorem day_difference_monotone
        (date1 now1 date2 now2 : datetime) (o1 o2 o3 o4 : timedelta) :
  valid_datetime date1 = true -> valid_datetime now1 = true ->
  valid_datetime date2 = true -> valid_datetime now2 = true ->
  tzinfo date1 = Some o1 -> tzinfo now1 = Some o2 ->
  tzinfo date2 = Some o3 -> tzinfo now2 = Some o4 ->
  duration_us date1 now1 <= duration_us date2 now2 ->
  exists delta1 delta2,
    datetime_sub date1 now1 = Ok delta1
    /\ datetime_sub date2 now2 = Ok delta2
    /\ td_days delta1 <= td_days delta2.
Proof.
  intros V1 V2 V3 V4 E1 E2 E3 E4 Hle.
  destruct (datetime_sub_aware date1 now1 o1 o2 V1 V2 E1 E2)
    as (delta1 & S1 & D1 & _).
  destruct (datetime_sub_aware date2 now2 o3 o4 V3 V4 E3 E4)
    as (delta2 & S2 & D2 & _).
  exists delta1, delta2. repeat split; [exact S1|exact S2|].
  rewrite D1, D2. unfold floor_days, one_day_us.
  apply Z.div_le_mono; [lia|exact Hle].
Qed.

(** X9.  The same instant subtracted in either order: the two day differences
    add up to 0 when the duration is a whole number of days and to -1
    otherwise, so a past date is counted one day further away than a
    future date at the same distance. *)
Theorem day_difference_swapped
        (date now : datetime) (o1 o2 : timedelta) :
  valid_datetime date = true -> valid_datetime now = true ->
  tzinfo date = Some o1 -> tzinfo now = Some o2 ->
  exists forward backward,
    datetime_sub date now = Ok forward
    /\ datetime_sub now date = Ok backward
    /\ td_days forward + td_days backward
       = (if duration_us date now mod one_day_us =? 0 then 0 else -1).
Proof.
  intros V1 V2 E1 E2.
  destruct (datetime_sub_aware date now o1 o2 V1 V2 E1 E2)
    as (forward & S1 & D1 & _).
  destruct (datetime_sub_aware now date o2 o1 V2 V1 E2 E1)
    as (backward & S2 & D2 & _).
  exists forward, backward. repeat split; [exact S1|exact S2|].
  rewrite D1, D2.
  replace (duration_us now date) with (- duration_us date now)
    by (unfold duration_us; ring).
  unfold floor_days, one_day_us.
  destruct (Z.eqb_spec (duration_us date now mod 86400000000) 0);
    Z.div_mod_to_equations; lia.
Qed.

Section Labels.

Variable fromisoformat : string -> result datetime.

(** X10.  The result depends on the date and the clock only through the signed
    duration between the two instants: the offset a date is written with,
    or shifting date and clock together, changes nothing. *)
Theorem label_depends_on_duration_only
        (s1 s2 : string) (date1 date2 : datetime) (off1 off2 : timedelta)
        (w1 w2 : World) :
  truthy (JStr s1) = true -> truthy (JStr s2) = true ->
  fromisoformat (replace_char "Z" "+00:00" s1) = Ok date1 ->
  fromisoformat (replace_char "Z" "+00:00" s2) = Ok date2 ->
  valid_datetime date1 = true -> valid_datetime date2 = true ->
  tzinfo date1 = Some off1 -> tzinfo date2 = Some off2 ->
  valid_datetime (clock w1) = true -> valid_datetime (clock w2) = true ->
  duration_us date1 (aware_utc (clock w1))
  = duration_us date2 (aware_utc (clock w2)) ->
  fst (format_relative_date fromisoformat (JStr s1) w1)
  = fst (format_relative_date fromisoformat (JStr s2) w2).
Proof.
  intros T1 T2 P1 P2 V1 V2 O1 O2 C1 C2 Hdur.
  rewrite (format_relative_date_aware fromisoformat s1 date1 off1 w1
             T1 P1 V1 O1 C1).
  rewrite (format_relative_date_aware fromisoformat s2 date2 off2 w2
             T2 P2 V2 O2 C2).
  cbv zeta. rewrite Hdur. reflexivity.
Qed.

(** X11.  The labels by distance: a date from now up to, but less than, 24 hours
    ahead is "Today" and one from 24 up to 48 hours ahead is "Tomorrow",
    while a date up to 24 hours in the past, however little, is
    "Yesterday". *)
Theorem label_by_duration_window
        (s : string) (date : datetime) (off : timedelta) (w : World) :
  truthy (JStr s) = true ->
  fromisoformat (replace_char "Z" "+00:00" s) = Ok date ->
  valid_datetime date = true ->
  tzinfo date = Some off ->
  valid_datetime (clock w) = true ->
  let duration := duration_us date (aware_utc (clock w)) in
  (0 <= duration < one_day_us ->
   format_relative_date fromisoformat (JStr s) w = (Ret (JStr "Today"), w))
  /\ (one_day_us <= duration < 2 * one_day_us ->
      format_relative_date fromisoformat (JStr s) w
      = (Ret (JStr "Tomorrow"), w))
  /\ (- one_day_us <= duration < 0 ->
      format_relative_date fromisoformat (JStr s) w
      = (Ret (JStr "Yesterday"), w)).
Proof.
  intros Ht Hp Hv Hoff Hc duration.
  rewrite (format_relative_date_aware fromisoformat s date off w
             Ht Hp Hv Hoff Hc).
  cbv zeta. fold duration. unfold floor_days, one_day_us.
  repeat split; intros Hd.
  - replace (duration / 86400000000) with 0
      by (Z.div_mod_to_equations; lia).
    reflexivity.
  - replace (duration / 86400000000) with 1
      by (Z.div_mod_to_equations; lia).
    reflexivity.
  - replace (duration / 86400000000) with (-1)
      by (Z.div_mod_to_equations; lia).
    reflexivity.
Qed.

End Labels.

(** ** The ordinal follows the calendar *)

Lemma days_before_year_succ (y : Z) :
  _days_before_year (y + 1)
  = _days_before_year y + 365 + (if _is_leap y then 1 else 0).
Proof.
  unfold _days_before_year, _is_leap. cbv zeta.
  replace (y + 1 - 1) with y by ring.
  destruct (Z.eqb_spec (y mod 4) 0); destruct (Z.eqb_spec (y mod 100) 0);
    destruct (Z.eqb_spec (y mod 400) 0); cbn [andb orb negb];
    Z.div_mod_to_equations; lia.
Qed.

Lemma days_before_year_mono (y y' : Z) :
  y <= y' -> _days_before_year y <= _days_before_year y'.
Proof.
  unfold _days_before_year. cbv zeta. intros H.
  Z.div_mod_to_equations. lia.
Qed.

Lemma day_of_year_bounds (y m d : Z) :
  check_date_fields y m d = true ->
  1 <= _days_before_month y m + d <= 365 + (if _is_leap y then 1 else 0).
Proof.
  unfold check_date_fields. intros H.
  repeat (apply andb_prop in H as [H ?]).
  repeat match goal with
         | H : (_ <=? _) = true |- _ => apply Z.leb_le in H
         end.
  assert (Hm : m = 1 \/ m = 2 \/ m = 3 \/ m = 4 \/ m = 5 \/ m = 6 \/ m = 7
               \/ m = 8 \/ m = 9 \/ m = 10 \/ m = 11 \/ m = 12) by lia.
  unfold _days_before_month, _days_in_month in *.
  destruct (_is_leap y);
    repeat (destruct Hm as [-> | Hm]); try subst m;
    eval_tables; eval_tests; lia.
Qed.

Lemma day_of_year_order (y m1 d1 m2 d2 : Z) :
  check_date_fields y m1 d1 = true ->
  check_date_fields y m2 d2 = true ->
  m1 < m2 ->
  _days_before_month y m1 + d1 < _days_before_month y m2 + d2.
Proof.
  unfold check_date_fields. intros H1 H2 Hlt.
  repeat (apply andb_prop in H1 as [H1 ?]).
  repeat (apply andb_prop in H2 as [H2 ?]).
  repeat match goal with
         | H : (_ <=? _) = true |- _ => apply Z.leb_le in H
         end.
  assert (Hm1 : m1 = 1 \/ m1 = 2 \/ m1 = 3 \/ m1 = 4 \/ m1 = 5 \/ m1 = 6
                \/ m1 = 7 \/ m1 = 8 \/ m1 = 9 \/ m1 = 10 \/ m1 = 11
                \/ m1 = 12) by lia.
  assert (Hm2 : m2 = 1 \/ m2 = 2 \/ m2 = 3 \/ m2 = 4 \/ m2 = 5 \/ m2 = 6
                \/ m2 = 7 \/ m2 = 8 \/ m2 = 9 \/ m2 = 10 \/ m2 = 11
                \/ m2 = 12) by lia.
  unfold _days_before_month, _days_in_month in *.
  destruct (_is_leap y);
    repeat (destruct Hm1 as [-> | Hm1]); try subst m1;
    repeat (destruct Hm2 as [-> | Hm2]); try subst m2;
    try lia; eval_tables; eval_tests; lia.
Qed.

Lemma ymd2ord_increasing (y1 m1 d1 y2 m2 d2 : Z) :
  check_date_fields y1 m1 d1 = true ->
  check_date_fields y2 m2 d2 = true ->
  date_before y1 m1 d1 y2 m2 d2 ->
  _ymd2ord y1 m1 d1 < _ymd2ord y2 m2 d2.
Proof.
  intros V1 V2 [Hy | [-> [Hm | [-> Hd]]]]; unfold _ymd2ord.
  - pose proof (day_of_year_bounds y1 m1 d1 V1) as B1.
    pose proof (day_of_year_bounds y2 m2 d2 V2) as B2.
    pose proof (days_before_year_succ y1) as Hs.
    pose proof (days_before_year_mono (y1 + 1) y2 ltac:(lia)) as Hmono.
    lia.
  - pose proof (day_of_year_order y2 m1 d1 m2 d2 V1 V2 Hm). lia.
  - lia.
Qed.

(** X12.  The ordinal used by the subtraction orders the dates the constructor
    accepts exactly as the calendar does; in particular two different
    dates never share an ordinal. *)
Theorem ymd2ord_follows_calendar (y1 m1 d1 y2 m2 d2 : Z) :
  check_date_fields y1 m1 d1 = true ->
  check_date_fields y2 m2 d2 = true ->
  (date_before y1 m1 d1 y2 m2 d2 <-> _ymd2ord y1 m1 d1 < _ymd2ord y2 m2 d2)
  /\ (_ymd2ord y1 m1 d1 = _ymd2ord y2 m2 d2 ->
      y1 = y2 /\ m1 = m2 /\ d1 = d2).
Proof.
  intros V1 V2.
  assert (Htri : date_before y1 m1 d1 y2 m2 d2
                 \/ (y1 = y2 /\ m1 = m2 /\ d1 = d2)
                 \/ date_before y2 m2 d2 y1 m1 d1)
    by (unfold date_before; lia).
  split; [split|].
  - apply ymd2ord_increasing; assumption.
  - intros Hlt. destruct Htri as [H | [(-> & -> & ->) | H]];
      [exact H | lia | ].
    pose proof (ymd2ord_increasing _ _ _ _ _ _ V2 V1 H). lia.
  - intros Heq. destruct Htri as [H | [H | H]]; [ | exact H | ].
    + pose proof (ymd2ord_increasing _ _ _ _ _ _ V1 V2 H). lia.
    + pose proof (ymd2ord_increasing _ _ _ _ _ _ V2 V1 H). lia.
Qed.

(** ** The calendar day and the sign of the day difference *)

Lemma timedelta_new_normalised (d s us : Z) (t : timedelta) :
  timedelta_new d s us = Ok t ->
  0 <= td_seconds t < 86400 /\ 0 <= td_microseconds t < 1000000.
Proof.
  unfold timedelta_new. cbv zeta beta iota.
  destruct (Z.abs _ >? 999999999); [discriminate|].
  intros [= <-]. cbn [td_seconds td_microseconds].
  split; Z.div_mod_to_equations; lia.
Qed.

Lemma datetime_sub_normalised (a b : datetime) (delta : timedelta) :
  datetime_sub a b = Ok delta ->
  0 <= td_seconds delta < 86400 /\ 0 <= td_microseconds delta < 1000000.
Proof.
  unfold datetime_sub. cbv zeta.
  destruct (timedelta_new _ _ _) as [base|e] eqn:Eb; [|discriminate].
  pose proof (timedelta_new_normalised _ _ _ _ Eb) as Hb.
  destruct (tzinfo a) as [myoff|], (tzinfo b) as [otoff|];
    try discriminate.
  - destruct (timedelta_eqb myoff otoff).
    + intros [= <-]. exact Hb.
    + destruct (timedelta_add base otoff) as [t|e]; [|discriminate].
      unfold timedelta_sub. apply timedelta_new_normalised.
  - intros [= <-]. exact Hb.
Qed.

(** X13.  What [date - now] holds: the duration split, without loss, into whole
    days (possibly negative), seconds within the day and microseconds
    within the second, the last two never negative. *)
Theorem date_minus_now_is_normalised
        (date now : datetime) (o1 o2 : timedelta) :
  valid_datetime date = true -> valid_datetime now = true ->
  tzinfo date = Some o1 -> tzinfo now = Some o2 ->
  exists delta,
    datetime_sub date now = Ok delta
    /\ duration_us date now
       = td_days delta * one_day_us + td_seconds delta * 1000000
         + td_microseconds delta
    /\ 0 <= td_seconds delta < 86400
    /\ 0 <= td_microseconds delta < 1000000.
Proof.
  intros V1 V2 E1 E2.
  destruct (datetime_sub_aware date now o1 o2 V1 V2 E1 E2)
    as (delta & Hsub & _ & Htot).
  exists delta. split; [exact Hsub|]. split.
  - rewrite <- Htot. unfold td_total_us, one_day_us. ring.
  - exact (datetime_sub_normalised date now delta Hsub).
Qed.

(** X14.  For a date written in UTC, the calendar day decides the side: a date
    on an earlier day than the clock's has a day difference of -1 or
    less, one on a later day has 0 or more, and one on the clock's own day
    has 0 or -1. *)
Theorem calendar_day_decides_sign (date now : datetime) :
  valid_datetime date = true -> valid_datetime now = true ->
  tzinfo date = Some timezone_utc ->
  exists delta,
    datetime_sub date (aware_utc now) = Ok delta
    /\ (date_before (year date) (month date) (day date)
                    (year now) (month now) (day now) ->
        td_days delta <= -1)
    /\ (date_before (year now) (month now) (day now)
                    (year date) (month date) (day date) ->
        0 <= td_days delta)
    /\ (year date = year now /\ month date = month now
        /\ day date = day now ->
        td_days delta = 0 \/ td_days delta = -1).
Proof.
  intros Vd Vn Htz.
  destruct (datetime_sub_aware date (aware_utc now) timezone_utc timezone_utc
              Vd (valid_aware_utc now Vn) Htz eq_refl)
    as (delta & Hsub & Hdays & _).
  exists delta. split; [exact Hsub|].
  rewrite Hdays. clear Hdays Hsub.
  unfold floor_days, one_day_us, duration_us, utc_micros, toordinal,
    aware_utc.
  cbn [year month day hour minute second microsecond tzinfo].
  rewrite Htz. unfold td_total_us, timezone_utc.
  cbn [td_days td_seconds td_microseconds].
  unfold valid_datetime in Vd, Vn.
  apply andb_prop in Vd as [Vd _]. apply andb_prop in Vd as [Dd Td].
  apply andb_prop in Vn as [Vn _]. apply andb_prop in Vn as [Dn Tn].
  apply check_time_fields_bounds in Td, Tn.
  repeat split.
  - intros Hb. pose proof (ymd2ord_increasing _ _ _ _ _ _ Dd Dn Hb).
    Z.div_mod_to_equations. lia.
  - intros Hb. pose proof (ymd2ord_increasing _ _ _ _ _ _ Dn Dd Hb).
    Z.div_mod_to_equations. lia.
  - intros (-> & -> & ->). Z.div_mod_to_equations. lia.
Qed.

(** ** Sample runs for the further properties *)

Lemma non_string_date_is_printed_back_witness :
  run_script fromisoformat_iso (world_of (Ok task_numeric_due) noon)
  = (0, MkWorld (Ok task_numeric_due) noon [JInt 20251014] []).
Proof.
  apply (non_string_date_is_printed_back fromisoformat_iso
           (world_of (Ok task_numeric_due) noon) task_numeric_due
           (JInt 20251014));
    reflexivity.
Defined.

Lemma other_fields_are_ignored_witness :
  (exists r,
      run_script fromisoformat_iso (world_of (Ok (JObj task_start_due)) noon)
      = (0, write_stdout r (world_of (Ok (JObj task_start_due)) noon))
      /\ run_script fromisoformat_iso
           (MkWorld (Ok (JObj task_start_due_verbose)) noon [JNull] [])
         = (0, write_stdout r
                 (MkWorld (Ok (JObj task_start_due_verbose)) noon [JNull] [])))
  \/ (exists e,
         run_script fromisoformat_iso
                    (world_of (Ok (JObj task_start_due)) noon)
         = (1, write_stderr (JStr ("Error: " ++ exc_msg e))
                 (world_of (Ok (JObj task_start_due)) noon))
         /\ run_script fromisoformat_iso
              (MkWorld (Ok (JObj task_start_due_verbose)) noon [JNull] [])
            = (1, write_stderr (JStr ("Error: " ++ exc_msg e))
                    (MkWorld (Ok (JObj task_start_due_verbose)) noon
                             [JNull] []))).
Proof.
  apply (other_fields_are_ignored fromisoformat_iso
           (world_of (Ok (JObj task_start_due)) noon)
           (MkWorld (Ok (JObj task_start_due_verbose)) noon [JNull] [])
           task_start_due task_start_due_verbose);
    reflexivity.
Defined.

Lemma trailing_Z_is_utc_offset_witness :
  format_relative_date fromisoformat_iso (JStr "2025-10-19T12:00:00Z")
                       (world_of (Ok JNull) noon)
  = format_relative_date fromisoformat_iso (JStr "2025-10-19T12:00:00+00:00")
                         (world_of (Ok JNull) noon).
Proof.
  apply (trailing_Z_is_utc_offset fromisoformat_iso "2025-10-19T12:00:00"
           (Datetime 2025 10 19 12 0 0 0 (Some timezone_utc)) timezone_utc
           (world_of (Ok JNull) noon));
    reflexivity.
Defined.

Lemma parser_handling_of_Z_is_irrelevant_witness :
  run_script fromisoformat_with_Z
             (world_of (Ok (task_due "2025-10-19T12:00:00Z")) noon)
  = run_script fromisoformat_no_Z
               (world_of (Ok (task_due "2025-10-19T12:00:00Z")) noon).
Proof.
  apply (parser_handling_of_Z_is_irrelevant fromisoformat_with_Z
           fromisoformat_no_Z
           (world_of (Ok (task_due "2025-10-19T12:00:00Z")) noon)).
  intros s Hs. unfold fromisoformat_with_Z, fromisoformat_no_Z.
  rewrite Hs, (replace_char_absent _ _ s Hs). reflexivity.
Defined.

Lemma day_difference_monotone_witness :
  exists delta1 delta2,
    datetime_sub (Datetime 2025 10 13 11 0 0 0 (Some timezone_utc))
                 (aware_utc noon) = Ok delta1
    /\ datetime_sub (Datetime 2025 10 14 11 0 0 0 (Some timezone_utc))
                    (aware_utc noon) = Ok delta2
    /\ td_days delta1 <= td_days delta2.
Proof.
  apply (day_difference_monotone
           (Datetime 2025 10 13 11 0 0 0 (Some timezone_utc)) (aware_utc noon)
           (Datetime 2025 10 14 11 0 0 0 (Some timezone_utc)) (aware_utc noon)
           timezone_utc timezone_utc timezone_utc timezone_utc);
    try reflexivity.
  vm_compute. discriminate.
Defined.

Lemma day_difference_swapped_witness :
  exists forward backward,
    datetime_sub (Datetime 2025 10 15 0 0 0 0 (Some timezone_utc))
                 (aware_utc noon) = Ok forward
    /\ datetime_sub (aware_utc noon)
                    (Datetime 2025 10 15 0 0 0 0 (Some timezone_utc))
       = Ok backward
    /\ td_days forward + td_days backward = -1.
Proof.
  destruct (day_difference_swapped
              (Datetime 2025 10 15 0 0 0 0 (Some timezone_utc))
              (aware_utc noon) timezone_utc timezone_utc
              eq_refl eq_refl eq_refl eq_refl)
    as (forward & backward & Hf & Hb & Hsum).
  exists forward, backward.
  split; [exact Hf|]. split; [exact Hb|].
  rewrite Hsum. reflexivity.
Defined.

Lemma label_depends_on_duration_only_witness :
  fst (format_relative_date fromisoformat_iso
         (JStr "2025-10-15T14:00:00+02:00") (world_of (Ok JNull) noon))
  = fst (format_relative_date fromisoformat_iso
           (JStr "2025-10-15T12:00:00Z") (world_of (Ok JNull) noon)).
Proof.
  apply (label_depends_on_duration_only fromisoformat_iso
           "2025-10-15T14:00:00+02:00" "2025-10-15T12:00:00Z"
           (Datetime 2025 10 15 14 0 0 0 (Some (Timedelta 0 7200 0)))
           (Datetime 2025 10 15 12 0 0 0 (Some timezone_utc))
           (Timedelta 0 7200 0) timezone_utc
           (world_of (Ok JNull) noon) (world_of (Ok JNull) noon));
    reflexivity.
Defined.

Lemma label_by_duration_window_witness :
  format_relative_date fromisoformat_iso (JStr "2025-10-14T11:59:59Z")
                       (world_of (Ok JNull) noon)
  = (Ret (JStr "Yesterday"), world_of (Ok JNull) noon).
Proof.
  apply (label_by_duration_window fromisoformat_iso "2025-10-14T11:59:59Z"
           (Datetime 2025 10 14 11 59 59 0 (Some timezone_utc)) timezone_utc
           (world_of (Ok JNull) noon));
    try reflexivity.
  vm_compute. split; [discriminate|reflexivity].
Defined.

Lemma ymd2ord_follows_calendar_witness :
  _ymd2ord 2024 2 29 < _ymd2ord 2024 3 1.
Proof.
  apply (ymd2ord_follows_calendar 2024 2 29 2024 3 1);
    try reflexivity.
  unfold date_before. lia.
Defined.

Lemma date_minus_now_is_normalised_witness :
  exists delta,
    datetime_sub (Datetime 2025 10 14 0 0 0 0 (Some timezone_utc))
                 (aware_utc noon) = Ok delta
    /\ td_days delta = -1 /\ td_seconds delta = 43200.
Proof.
  destruct (date_minus_now_is_normalised
              (Datetime 2025 10 14 0 0 0 0 (Some timezone_utc))
              (aware_utc noon) timezone_utc timezone_utc
              eq_refl eq_refl eq_refl eq_refl)
    as (delta & Hsub & _).
  exists delta. split; [exact Hsub|].
  vm_compute in Hsub. injection Hsub as <-. split; reflexivity.
Defined.

Lemma calendar_day_decides_sign_witness :
  exists delta,
    datetime_sub (Datetime 2025 10 13 23 59 59 0 (Some timezone_utc))
                 (aware_utc noon) = Ok delta
    /\ td_days delta <= -1.
Proof.
  destruct (calendar_day_decides_sign
              (Datetime 2025 10 13 23 59 59 0 (Some timezone_utc)) noon
              eq_refl eq_refl eq_refl)
    as (delta & Hsub & Hearlier & _).
  exists delta. split; [exact Hsub|].
  apply Hearlier. unfold date_before. cbn. lia.
Defined.
